(** * PAC time predicates: [timeRange] and [weekdayRange]

    A shallow embedding of [src/timeRange.ts] and [src/weekdayRange.ts]
    and the proofs of their documented behaviour.

    The two functions are JavaScript: they receive primitive values,
    coerce them, read the wall clock through [new Date()], and
    [timeRange] edits a private copy of its [arguments] object in place.
    The embedding keeps that shape:

    - JavaScript primitives are the type [value]; numbers are the
      integer-valued doubles, the infinities and [NaN], and [*] and [+]
      round as double precision does (the two functions only ever
      compute with integers);
    - the built-ins the code calls ([parseInt], [===], [indexOf], the
      [Date] getters, [slice], [pop], [push], [map]) follow ECMA-262;
    - arrays live in a heap of locations, and every function body is a
      computation in a state-and-failure monad over a [World] made of the
      clock reading and the heap. *)

From Stdlib Require Import ZArith Lia Bool Ascii String.
From Stdlib Require Import DecimalString DecimalPos.
From stdpp Require Import base option list strings gmap.

Open Scope Z_scope.

(** ** Numbers *)

(** A JavaScript number, as far as these functions can tell one from
    another. They only ever hold arithmetic on integers, so a number is
    here an integer-valued double, an infinity or the not-a-number
    sentinel; the two zeros, which [<=], [<], [===], [*] and [+] on
    integers never tell apart, are the one [Int 0]. [Int z] is meant for
    the [z] that are doubles: [Num.round] gives the double next to any
    integer, and every number a run produces comes out of it. *)
Inductive number : Type :=
  | NaN : number
  | Int (z : Z) : number
  | PosInf : number
  | NegInf : number.

Coercion Int : Z >-> number.

Declare Scope num_scope.
Delimit Scope num_scope with num.
Bind Scope num_scope with number.

Module Num.

(** The largest finite double. *)
Definition double_max : Z := (2 ^ 53 - 1) * 2 ^ 971.

(** The double nearest to the natural number [n], ties to the even
    significand, before overflow is looked at: the 53 leading bits of
    [n], rounded on the bits that follow. *)
Definition round_nat (n : Z) : Z :=
  let e := Z.log2 n - 52 in
  if e <=? 0 then n
  else
    let q := n / 2 ^ e in
    let r := n mod 2 ^ e in
    let half := 2 ^ (e - 1) in
    if (half <? r) || ((r =? half) && Z.odd q) then (q + 1) * 2 ^ e
    else q * 2 ^ e.

(** The Number value of the integer [z] (round to nearest, ties to
    even; an infinity past the largest double). *)
Definition round (z : Z) : number :=
  let m := round_nat (Z.abs z) in
  if double_max <? m then (if z <? 0 then NegInf else PosInf)
  else Int (Z.sgn z * m).

(** The number a value of type [number] stands for. *)
Definition normal (a : number) : number :=
  match a with
  | Int z => round z
  | _ => a
  end.

(** [a + b] *)
Definition add (a b : number) : number :=
  match a, b with
  | NaN, _ | _, NaN => NaN
  | Int x, Int y => round (x + y)
  | PosInf, NegInf | NegInf, PosInf => NaN
  | PosInf, _ | _, PosInf => PosInf
  | NegInf, _ | _, NegInf => NegInf
  end.

(** [a * b] *)
Definition mul (a b : number) : number :=
  match a, b with
  | NaN, _ | _, NaN => NaN
  | Int x, Int y => round (x * y)
  | Int x, PosInf | PosInf, Int x =>
      if x =? 0 then NaN else if 0 <? x then PosInf else NegInf
  | Int x, NegInf | NegInf, Int x =>
      if x =? 0 then NaN else if 0 <? x then NegInf else PosInf
  | PosInf, PosInf | NegInf, NegInf => PosInf
  | PosInf, NegInf | NegInf, PosInf => NegInf
  end.

(** [a <= b]: false as soon as one side is [NaN]. *)
Definition le (a b : number) : bool :=
  match a, b with
  | NaN, _ | _, NaN => false
  | Int x, Int y => x <=? y
  | NegInf, _ | _, PosInf => true
  | _, _ => false
  end.

(** [a < b]: false as soon as one side is [NaN]. *)
Definition lt (a b : number) : bool :=
  match a, b with
  | NaN, _ | _, NaN => false
  | Int x, Int y => x <? y
  | NegInf, NegInf | PosInf, PosInf => false
  | NegInf, _ | _, PosInf => true
  | _, _ => false
  end.

(** [a === b] on two numbers: [NaN] equals nothing, itself included. *)
Definition eq (a b : number) : bool :=
  match a, b with
  | Int x, Int y => x =? y
  | PosInf, PosInf | NegInf, NegInf => true
  | _, _ => false
  end.

End Num.

Infix "+" := Num.add : num_scope.
Infix "*" := Num.mul : num_scope.
Infix "<=" := Num.le : num_scope.
Infix "<" := Num.lt : num_scope.
Infix "===" := Num.eq (at level 70, no associativity) : num_scope.

(** ** Values *)

(** The primitives a PAC script can pass: the parameters are documented
    as strings, scripts also pass number literals, and a parameter that
    is left out reads as [undefined]. A string is its UTF-8 text. A
    number argument [VNum (Int z)] is the literal [z], whose Number
    value is [Num.round z]. *)
Inductive value : Type :=
  | VUndefined : value
  | VNull : value
  | VBool (b : bool) : value
  | VNum (n : number) : value
  | VStr (s : string) : value.

(** Strict equality [a === b] of two values: same type and same content,
    no coercion. *)
Definition strict_eq (a b : value) : bool :=
  match a, b with
  | VUndefined, VUndefined => true
  | VNull, VNull => true
  | VBool x, VBool y => Bool.eqb x y
  | VNum x, VNum y => (Num.normal x === Num.normal y)%num
  | VStr s, VStr t => String.eqb s t
  | _, _ => false
  end.

(** ** [ToString] and [parseInt] (ECMA-262 7.1.17, 6.1.6.1.20 and
    19.2.5) *)

(** Decimal digits of an integer, with a leading [-] when negative. *)
Definition Z_to_string (z : Z) : string :=
  NilZero.string_of_int (Z.to_int z).

(** The integer with the fewest significant digits whose Number value is
    the positive double [x], looked for among the multiples of [10^p],
    then of [10^(p-1)], down to [x] itself. Among the multiples of one
    power only the two around [x] can be nearest; when both round to
    [x] the nearer one is taken, the one with the even digits when they
    are as near. *)
Fixpoint shortest (x : Z) (p : nat) : Z :=
  match p with
  | O => x
  | S p' =>
      let u := 10 ^ Z.of_nat p in
      let lo := x / u * u in
      let hi := lo + u in
      let ok_lo := (Num.round lo === Int x)%num in
      let ok_hi := (Num.round hi === Int x)%num in
      if ok_lo && ok_hi then
        if x - lo <? hi - x then lo
        else if hi - x <? x - lo then hi
        else if Z.even (x / u) then lo else hi
      else if ok_lo then lo
      else if ok_hi then hi
      else shortest x p'
  end.

(** [s] without the zeros it ends with. *)
Fixpoint strip_zeros (s : string) : string :=
  match s with
  | String c s' =>
      let r := strip_zeros s' in
      if Ascii.eqb c "0" && String.eqb r "" then "" else String c r
  | EmptyString => EmptyString
  end.

(** [d.ddde+n], or [de+n] for one digit, from the decimal digits of an
    integer. *)
Definition exponent_form (digits : string) : string :=
  match strip_zeros digits with
  | String d EmptyString =>
      String d ("e+" ++ Z_to_string (Z.of_nat (String.length digits) - 1))
  | String d rest =>
      String d
        ("." ++ rest ++ "e+"
         ++ Z_to_string (Z.of_nat (String.length digits) - 1))
  | EmptyString => digits
  end.

(** [Number::toString] in radix 10 of a positive integer-valued double:
    the shortest digits that read back as [x], written out in full below
    [10^21] and in exponent form from there on. *)
Definition Number_toString (x : Z) : string :=
  let c := shortest x (String.length (Z_to_string x) - 1) in
  if c <? 10 ^ 21 then Z_to_string c
  else exponent_form (Z_to_string c).

Definition ToString (v : value) : string :=
  match v with
  | VUndefined => "undefined"
  | VNull => "null"
  | VBool true => "true"
  | VBool false => "false"
  | VNum n =>
      match Num.normal n with
      | NaN => "NaN"
      | PosInf => "Infinity"
      | NegInf => "-Infinity"
      | Int 0 => "0"
      | Int (Z.pos p) => Number_toString (Z.pos p)
      | Int (Z.neg p) => String "-" (Number_toString (Z.pos p))
      end
  | VStr s => s
  end.

(** White space and line terminators (ECMA-262 12.2 and 12.3), as the
    bytes of their UTF-8 text: one byte for TAB, LF, VT, FF, CR and
    SP, two for U+00A0, three for U+1680, U+2000 to U+200A, U+2028,
    U+2029, U+202F, U+205F, U+3000 and U+FEFF. *)
Definition white_space1 (c : ascii) : bool :=
  let a := Z.of_nat (nat_of_ascii c) in
  ((9 <=? a) && (a <=? 13)) || (a =? 32).

Definition white_space2 (c1 c2 : ascii) : bool :=
  let a := Z.of_nat (nat_of_ascii c1) in
  let b := Z.of_nat (nat_of_ascii c2) in
  (a =? 194) && (b =? 160).

Definition white_space3 (c1 c2 c3 : ascii) : bool :=
  let a := Z.of_nat (nat_of_ascii c1) in
  let b := Z.of_nat (nat_of_ascii c2) in
  let c := Z.of_nat (nat_of_ascii c3) in
  ((a =? 225) && (b =? 154) && (c =? 128))
  || ((a =? 226) && (b =? 128)
      && (((128 <=? c) && (c <=? 138)) || (c =? 168) || (c =? 169)
          || (c =? 175)))
  || ((a =? 226) && (b =? 129) && (c =? 159))
  || ((a =? 227) && (b =? 128) && (c =? 128))
  || ((a =? 239) && (b =? 187) && (c =? 191)).

Fixpoint TrimStart (s : string) : string :=
  match s with
  | String c1 s1 =>
      if white_space1 c1 then TrimStart s1
      else
        match s1 with
        | String c2 s2 =>
            if white_space2 c1 c2 then TrimStart s2
            else
              match s2 with
              | String c3 s3 =>
                  if white_space3 c1 c2 c3 then TrimStart s3 else s
              | EmptyString => s
              end
        | EmptyString => s
        end
  | EmptyString => EmptyString
  end.

(** The value of [c] as a digit: [0-9], then [a-z] or [A-Z] for 10 to
    35. *)
Definition digit_of_ascii (c : ascii) : option Z :=
  let n := Z.of_nat (nat_of_ascii c) in
  if (48 <=? n) && (n <=? 57) then Some (n - 48)
  else if (97 <=? n) && (n <=? 122) then Some (n - 87)
  else if (65 <=? n) && (n <=? 90) then Some (n - 55)
  else None.

(** The digit [c] stands for in radix [R], if it is one. *)
Definition radix_digit (R : Z) (c : ascii) : option Z :=
  match digit_of_ascii c with
  | Some d => if d <? R then Some d else None
  | None => None
  end.

(** Reads the longest prefix of [s] made of radix-[R] digits. [acc] is
    the value of the digits read so far, [None] before the first one. *)
Fixpoint parse_digits (R : Z) (s : string) (acc : option Z) : option Z :=
  match s with
  | String c s' =>
      match radix_digit R c with
      | Some d => parse_digits R s' (Some (R * default 0 acc + d))
      | None => acc
      end
  | EmptyString => acc
  end.

(** Splits a leading sign off: [(-1, rest)] after [-], [(1, rest)]
    otherwise, [+] being dropped too. *)
Definition strip_sign (s : string) : Z * string :=
  match s with
  | String "-" s' => (-1, s')
  | String "+" s' => (1, s')
  | _ => (1, s)
  end.

(** Drops a leading [0x] or [0X]. *)
Definition strip_hex_prefix (s : string) : option string :=
  match s with
  | String "0" (String "x" s') => Some s'
  | String "0" (String "X" s') => Some s'
  | _ => None
  end.

(** [parseInt(v, radix)]: the Number value of the integer the leading
    digits spell. *)
Definition parseInt (v : value) (radix : Z) : number :=
  let '(sign, str) := strip_sign (TrimStart (ToString v)) in
  if negb (radix =? 0) && ((radix <? 2) || (36 <? radix)) then NaN
  else
    let stripPrefix := (radix =? 0) || (radix =? 16) in
    let R := if radix =? 0 then 10 else radix in
    let '(R, str) :=
      match (if stripPrefix then strip_hex_prefix str else None) with
      | Some str' => (16, str')
      | None => (R, str)
      end in
    match parse_digits R str None with
    | Some n => Num.round (sign * n)
    | None => NaN
    end.

(** ** The clock: [Date] (ECMA-262 21.4.1) *)

(** What [new Date()] captures: the time value, in milliseconds since
    the epoch in UTC, and the offset of the host's local time zone in
    force at that moment, in milliseconds. *)
Record Date : Type := {
  time_value : Z;
  LocalTZA : Z
}.

Definition msPerSecond : Z := 1000.
Definition msPerMinute : Z := 60000.
Definition msPerHour : Z := 3600000.
Definition msPerDay : Z := 86400000.

Definition Day (t : Z) : Z := t / msPerDay.
(** The epoch, day 0, was a Thursday; Sunday is weekday 0. *)
Definition WeekDay (t : Z) : Z := (Day t + 4) mod 7.
Definition HourFromTime (t : Z) : Z := (t / msPerHour) mod 24.
Definition MinFromTime (t : Z) : Z := (t / msPerMinute) mod 60.
Definition SecFromTime (t : Z) : Z := (t / msPerSecond) mod 60.

Definition LocalTime (d : Date) : Z := time_value d + LocalTZA d.

Definition getHours (d : Date) : Z := HourFromTime (LocalTime d).
Definition getMinutes (d : Date) : Z := MinFromTime (LocalTime d).
Definition getSeconds (d : Date) : Z := SecFromTime (LocalTime d).
Definition getDay (d : Date) : Z := WeekDay (LocalTime d).

Definition getUTCHours (d : Date) : Z := HourFromTime (time_value d).
Definition getUTCMinutes (d : Date) : Z := MinFromTime (time_value d).
Definition getUTCSeconds (d : Date) : Z := SecFromTime (time_value d).
Definition getUTCDay (d : Date) : Z := WeekDay (time_value d).

(** ** The world and the monad of function bodies *)

Definition loc : Type := positive.

(** The state a call runs in: the reading [new Date()] returns, and the
    arrays that exist, by location. *)
Record World : Type := {
  clock : Date;
  heap : gmap loc (list value)
}.

(** A computation returns a result and the world it leaves, or fails
    ([None]: a reference to an array that does not exist). *)
Definition M (A : Type) : Type := World -> option (A * World).

Definition ret {A : Type} (a : A) : M A := fun w => Some (a, w).

Definition bind {A B : Type} (m : M A) (k : A -> M B) : M B :=
  fun w =>
    match m w with
    | Some (a, w') => k a w'
    | None => None
    end.

Notation "x <- m ;; k" := (bind m (fun x => k))
  (at level 100, m at next level, right associativity).
Notation "m ;;; k" := (bind m (fun _ => k))
  (at level 100, right associativity).

(** [if (b) { m }] *)
Definition when {A : Type} (b : bool) (m : M A) : M unit :=
  if b then m ;;; ret tt else ret tt.

(** The boolean a call returns, if it returns. *)
Definition result_of {A : Type} (m : M A) (w : World) : option A :=
  fst <$> m w.

(** [new Date()] *)
Definition new_Date : M Date := fun w => Some (clock w, w).

Definition read (l : loc) : M (list value) :=
  fun w =>
    match heap w !! l with
    | Some a => Some (a, w)
    | None => None
    end.

Definition write (l : loc) (a : list value) : M unit :=
  fun w => Some (tt, {| clock := clock w; heap := <[l := a]> (heap w) |}).

(** A new array, at a location no array occupies. *)
Definition alloc (a : list value) : M loc :=
  fun w =>
    let l := fresh (dom (heap w)) in
    Some (l, {| clock := clock w; heap := <[l := a]> (heap w) |}).

(** ** Arrays (ECMA-262 23.1.3) *)

(** [Array.prototype.slice.call(a)]: a new array with the elements of
    [a]. *)
Definition Array_slice (a : loc) : M loc :=
  elems <- read a ;; alloc elems.

(** [a.pop()]: removes the last element and returns it; [undefined],
    and no change, on an empty array. *)
Definition Array_pop (a : loc) : M value :=
  elems <- read a ;;
  match last elems with
  | Some v => write a (removelast elems) ;;; ret v
  | None => ret VUndefined
  end.

(** [a.push(v)]: appends [v], returns the new length. *)
Definition Array_push (a : loc) (v : value) : M Z :=
  elems <- read a ;;
  write a (elems ++ [v]) ;;;
  ret (Z.of_nat (length (elems ++ [v]))).

(** [a.length] *)
Definition Array_length (a : loc) : M Z :=
  elems <- read a ;; ret (Z.of_nat (length elems)).

(** [a.map(f)]. The array it builds is only ever read, through
    [index], so it is returned as a list and not allocated. *)
Definition Array_map {B : Type} (f : value -> B) (a : loc) : M (list B) :=
  elems <- read a ;; ret (map f elems).

(** [a[i]] on an array of numbers. Past the end JavaScript reads
    [undefined], which [===] tells from every number and which [<=],
    [<], [*] and [+] coerce to [NaN]: in each use below it behaves as
    [NaN], which stands for it here. *)
Definition index (a : list number) (i : nat) : number := nth i a NaN.

Notation "a .[ i ]" := (index a i) (at level 1, format "a .[ i ]").

(** [a.indexOf(v)]: the first position holding a value strictly equal
    to [v], or [-1]. *)
Fixpoint indexOf_from (a : list value) (v : value) (i : Z) : Z :=
  match a with
  | [] => -1
  | x :: a' => if strict_eq x v then i else indexOf_from a' v (i + 1)
  end.

Definition indexOf (a : list value) (v : value) : Z := indexOf_from a v 0.

(** ** src/timeRange.ts *)

Module TimeRange.

Definition secondsElapsedToday (hh mm ss : number) : number :=
  (hh * 3600 + mm * 60 + ss)%num.

Definition getCurrentHour (gmt : bool) (currentDate : Date) : number :=
  if gmt then getUTCHours currentDate else getHours currentDate.

Definition getCurrentMinute (gmt : bool) (currentDate : Date) : number :=
  if gmt then getUTCMinutes currentDate else getMinutes currentDate.

Definition getCurrentSecond (gmt : bool) (currentDate : Date) : number :=
  if gmt then getUTCSeconds currentDate else getSeconds currentDate.

(** start <= value <= finish *)
Definition valueInRange (start value finish : number) : bool :=
  (start <= value)%num && (value <= finish)%num.

(** The body of [timeRange], run on its [arguments] object. *)
Definition timeRange (arguments : loc) : M bool :=
  args <- Array_slice arguments ;;
  lastArg <- Array_pop args ;;
  let useGMTzone := strict_eq lastArg (VStr "GMT") in
  currentDate <- new_Date ;;
  when (negb useGMTzone) (Array_push args lastArg) ;;;
  noOfArgs <- Array_length args ;;
  let result := false in
  numericArgs <- Array_map (fun n => parseInt n 10) args ;;
  (* timeRange(hour) *)
  if noOfArgs =? 1 then
    ret (getCurrentHour useGMTzone currentDate === numericArgs.[0])%num
  (* timeRange(hour1, hour2) *)
  else if noOfArgs =? 2 then
    let currentHour := getCurrentHour useGMTzone currentDate in
    ret ((numericArgs.[0] <= currentHour)%num
         && (currentHour < numericArgs.[1])%num)
  (* timeRange(hour1, min1, hour2, min2) *)
  else if noOfArgs =? 4 then
    ret (valueInRange
           (secondsElapsedToday numericArgs.[0] numericArgs.[1] 0)
           (secondsElapsedToday
              (getCurrentHour useGMTzone currentDate)
              (getCurrentMinute useGMTzone currentDate)
              0)
           (secondsElapsedToday numericArgs.[2] numericArgs.[3] 59))
  (* timeRange(hour1, min1, sec1, hour2, min2, sec2) *)
  else if noOfArgs =? 6 then
    ret (valueInRange
           (secondsElapsedToday
              numericArgs.[0] numericArgs.[1] numericArgs.[2])
           (secondsElapsedToday
              (getCurrentHour useGMTzone currentDate)
              (getCurrentMinute useGMTzone currentDate)
              (getCurrentSecond useGMTzone currentDate))
           (secondsElapsedToday
              numericArgs.[3] numericArgs.[4] numericArgs.[5]))
  else
    ret result.

(** The call [timeRange(a1, ..., an)]: the values passed become a new
    [arguments] object, and the body runs on it. *)
Definition call (args : list value) : M bool :=
  arguments <- alloc args ;; timeRange arguments.

End TimeRange.

(** ** src/weekdayRange.ts *)

Module WeekdayRange.

(** The table of weekday tokens, a constant of the module that is only
    ever searched. *)
Definition weekdays : list value :=
  [VStr "SUN"; VStr "MON"; VStr "TUE"; VStr "WED"; VStr "THU";
   VStr "FRI"; VStr "SAT"].

(** Modelled from the spec: [isGMT] of [./util], which is not among the
    sources. The specification has one time zone marker, the
    case-sensitive literal [GMT], the same token [timeRange] compares
    its last argument to with [===]. *)
Definition isGMT (v : value) : bool := strict_eq v (VStr "GMT").

Definition getTodaysDay (gmt : bool) : M number :=
  if gmt
  then d <- new_Date ;; ret (Int (getUTCDay d))
  else d <- new_Date ;; ret (Int (getDay d)).

(** start <= value <= finish *)
Definition valueInRange (start value finish : number) : bool :=
  (start <= value)%num && (value <= finish)%num.

Definition isWeekday (v : value) : bool :=
  negb (indexOf weekdays v =? -1).

(** [weekdayRange(wd1, wd2, gmt)]; a parameter left out is
    [VUndefined]. Each assignment to a [let] variable of the source
    binds the name again. *)
Definition weekdayRange (wd1 wd2 gmt : value) : M bool :=
  let useGMTzone := false in
  let wd1Index := -1 in
  let wd2Index := -1 in
  let wd2IsGmt := false in
  let '(useGMTzone, wd2IsGmt) :=
    if isGMT gmt then (true, wd2IsGmt)
    else if isGMT wd2 then (true, true)
    else (useGMTzone, wd2IsGmt) in
  let wd1Index := indexOf weekdays wd1 in
  let wd2Index :=
    if negb wd2IsGmt && isWeekday wd2 then indexOf weekdays wd2
    else wd2Index in
  todaysDay <- getTodaysDay useGMTzone ;;
  if wd2Index <? 0 then
    ret (todaysDay === wd1Index)%num
  else if wd1Index <=? wd2Index then
    ret (valueInRange wd1Index todaysDay wd2Index)
  else
    ret (valueInRange wd1Index todaysDay 6
         || valueInRange 0 todaysDay wd2Index).

End WeekdayRange.

(** ** Definitions used in the statements and proofs *)

(** A world's array at [l] holding [a], over any rest [h] of the heap. *)
Definition with_array (c : Date) (h : gmap loc (list value)) (l : loc)
    (a : list value) : World :=
  {| clock := c; heap := <[l := a]> h |}.

(** The functional reading of [TimeRange.timeRange], which
    [timeRange_run] below proves the body computes: the zone flag, the
    array [args] holds after the marker has been looked for, and the
    dispatch on its length. *)
Module TimeRangeFun.
Import TimeRange.

Definition useGMTzone (args : list value) : bool :=
  strict_eq (default VUndefined (last args)) (VStr "GMT").

(** [pop] took the last element off ([undefined] off an empty array)
    and [push] put it back unless it was the marker. *)
Definition kept (args : list value) : list value :=
  if useGMTzone args then removelast args
  else removelast args ++ [default VUndefined (last args)].

Definition dispatch (gmt : bool) (currentDate : Date)
    (numericArgs : list number) : bool :=
  match numericArgs with
  | [hour] => (getCurrentHour gmt currentDate === hour)%num
  | [hour1; hour2] =>
      (hour1 <= getCurrentHour gmt currentDate)%num
      && (getCurrentHour gmt currentDate < hour2)%num
  | [hour1; min1; hour2; min2] =>
      valueInRange
        (secondsElapsedToday hour1 min1 0)
        (secondsElapsedToday (getCurrentHour gmt currentDate)
           (getCurrentMinute gmt currentDate) 0)
        (secondsElapsedToday hour2 min2 59)
  | [hour1; min1; sec1; hour2; min2; sec2] =>
      valueInRange
        (secondsElapsedToday hour1 min1 sec1)
        (secondsElapsedToday (getCurrentHour gmt currentDate)
           (getCurrentMinute gmt currentDate)
           (getCurrentSecond gmt currentDate))
        (secondsElapsedToday hour2 min2 sec2)
  | _ => false
  end.

Definition timeRange (args : list value) (currentDate : Date) : bool :=
  dispatch (useGMTzone args) currentDate
    (map (fun n => parseInt n 10) (kept args)).

End TimeRangeFun.

(** The vocabulary of the statements. *)

Global Instance number_eq_dec : EqDecision number.
Proof. solve_decision. Defined.

Global Instance value_eq_dec : EqDecision value.
Proof. solve_decision. Defined.

(** The optional trailing time zone argument of a call. *)
Definition zone (gmt : bool) : list value :=
  if gmt then [VStr "GMT"] else [].

(** An argument list without its trailing [GMT] marker, if it has one. *)
Definition without_marker (args : list value) : list value :=
  if decide (last args = Some (VStr "GMT")) then removelast args else args.

(** The clock fields in the zone a call selects. *)
Definition hour_now (gmt : bool) (d : Date) : Z :=
  if gmt then getUTCHours d else getHours d.
Definition minute_now (gmt : bool) (d : Date) : Z :=
  if gmt then getUTCMinutes d else getMinutes d.
Definition second_now (gmt : bool) (d : Date) : Z :=
  if gmt then getUTCSeconds d else getSeconds d.
Definition day_now (gmt : bool) (d : Date) : Z :=
  if gmt then getUTCDay d else getDay d.

(** Seconds elapsed since midnight at [h:m:s], and now. *)
Definition seconds_elapsed (h m s : Z) : Z := h * 3600 + m * 60 + s.

Definition seconds_now (gmt : bool) (d : Date) : Z :=
  seconds_elapsed (hour_now gmt d) (minute_now gmt d) (second_now gmt d).

(** The instant, in milliseconds since the epoch, of [h:m:s] UTC on day
    [d] of the week that began on Sunday 4 January 1970. *)
Definition instant (d h m s : Z) : Z :=
  ((((d + 3) * 24 + h) * 60 + m) * 60 + s) * 1000.

(** A world whose clock reads [t] milliseconds after the epoch in a zone
    [tza] milliseconds ahead of UTC, with no array yet. *)
Definition world_at (t tza : Z) : World :=
  {| clock := {| time_value := t; LocalTZA := tza |}; heap := ∅ |}.



(** The world [w] seen from a host whose local zone is UTC: the same
    instant, the same arrays, no offset. *)
Definition in_UTC (w : World) : World :=
  {| clock := {| time_value := time_value (clock w); LocalTZA := 0 |};
     heap := heap w |}.

(** The functional reading of [WeekdayRange.weekdayRange], which
    [weekdayRange_run] below proves the body computes. The second index
    is [indexOf] of the second argument in every case: the marker and
    anything [isWeekday] rejects are at index [-1] already. *)
Module WeekdayRangeFun.
Import WeekdayRange.

Definition useGMTzone (wd2 gmt : value) : bool := isGMT gmt || isGMT wd2.

Definition weekdayRange (wd1 wd2 gmt : value) (currentDate : Date)
    : bool :=
  let wd1Index := indexOf weekdays wd1 in
  let wd2Index := indexOf weekdays wd2 in
  let todaysDay := day_now (useGMTzone wd2 gmt) currentDate in
  if wd2Index <? 0 then todaysDay =? wd1Index
  else if wd1Index <=? wd2Index then
    (wd1Index <=? todaysDay) && (todaysDay <=? wd2Index)
  else
    (wd1Index <=? todaysDay) && (todaysDay <=? 6)
    || (0 <=? todaysDay) && (todaysDay <=? wd2Index).

End WeekdayRangeFun.

(** The magnitudes up to which [hh*3600 + mm*60 + ss] is computed
    without rounding: each product and each sum stays below [2^53]. *)
Definition in_range (z : Z) : Prop := - 10 ^ 12 <= z <= 10 ^ 12.

(** * Properties *)

(** ** Numbers and values *)

Lemma strict_eq_VStr (v : value) (s : string) :
  strict_eq v (VStr s) = true <-> v = VStr s.
Proof.
  destruct v; simpl; try (split; [discriminate | discriminate]).
  rewrite String.eqb_eq. split; [intros -> | intros [= ->]]; reflexivity.
Qed.

Lemma strict_eq_VStr_false (v : value) (s : string) :
  strict_eq v (VStr s) = false <-> v <> VStr s.
Proof.
  rewrite <- strict_eq_VStr. destruct (strict_eq v (VStr s)); split; congruence.
Qed.

Lemma Num_le_Int (x y : Z) : (Int x <= Int y)%num = true <-> x <= y.
Proof. apply Z.leb_le. Qed.

Lemma Num_lt_Int (x y : Z) : (Int x < Int y)%num = true <-> x < y.
Proof. apply Z.ltb_lt. Qed.

Lemma Num_eq_Int (x y : Z) : (Int x === Int y)%num = true <-> x = y.
Proof. apply Z.eqb_eq. Qed.

Example parseInt_examples :
  parseInt (VStr "17") 10 = Int 17
  /\ parseInt (VStr "  -08:30") 10 = Int (-8)
  /\ parseInt (VStr "0x1F") 10 = Int 0
  /\ parseInt (VStr "0x1F") 16 = Int 31
  /\ parseInt (VNum 30) 10 = Int 30
  /\ parseInt (VNum (-5)) 10 = Int (-5)
  /\ parseInt (VStr "GMT") 10 = NaN
  /\ parseInt (VStr "") 10 = NaN
  /\ parseInt VUndefined 10 = NaN.
Proof. repeat split; reflexivity. Qed.

(** Past the integers every double tells apart: the text of [2^53 + 1]
    reads as [2^53], the number [10^21] prints as [1e+21] and reads as 1,
    four hundred digits read as infinity; and white space outside ASCII
    (here U+2003 and U+00A0) is skipped. *)
Example parseInt_large_and_spaced :
  parseInt (VStr "9007199254740993") 10 = Int 9007199254740992
  /\ ToString (VNum (10 ^ 21)) = "1e+21"
  /\ parseInt (VNum (10 ^ 21)) 10 = Int 1
  /\ ToString (VNum (2 ^ 70)) = "1.1805916207174113e+21"
  /\ ToString (VNum (10 ^ 20 + 16384)) = "100000000000000020000"
  /\ parseInt (VStr (Z_to_string (10 ^ 400))) 10 = PosInf
  /\ parseInt (VNum PosInf) 10 = NaN
  /\ parseInt (VStr "  12") 10 = Int 12.
Proof. repeat split; vm_compute; reflexivity. Qed.

(** ** The clock fields are in range *)

Lemma HourFromTime_range (t : Z) : 0 <= HourFromTime t < 24.
Proof. apply Z.mod_pos_bound. lia. Qed.

Lemma MinFromTime_range (t : Z) : 0 <= MinFromTime t < 60.
Proof. apply Z.mod_pos_bound. lia. Qed.

Lemma SecFromTime_range (t : Z) : 0 <= SecFromTime t < 60.
Proof. apply Z.mod_pos_bound. lia. Qed.

Lemma WeekDay_range (t : Z) : 0 <= WeekDay t < 7.
Proof. apply Z.mod_pos_bound. lia. Qed.

(** Every reading is some clock's: day [d] of the week at [h:m:s], in a
    zone [tza] milliseconds ahead of UTC. *)
Lemma reading_exists (d h m s tza : Z) :
  0 <= d < 7 -> 0 <= h < 24 -> 0 <= m < 60 -> 0 <= s < 60 ->
  let w := world_at (instant d h m s - tza) tza in
  getDay (clock w) = d /\ getHours (clock w) = h
  /\ getMinutes (clock w) = m /\ getSeconds (clock w) = s.
Proof.
  intros Hd Hh Hm Hs w.
  unfold getDay, getHours, getMinutes, getSeconds, LocalTime, WeekDay, Day,
    HourFromTime, MinFromTime, SecFromTime, msPerDay, msPerHour, msPerMinute,
    msPerSecond.
  subst w. cbn [clock world_at time_value LocalTZA].
  replace (instant d h m s - tza + tza) with (instant d h m s) by lia.
  unfold instant.
  repeat split; Z.div_mod_to_equations; lia.
Qed.

(** ** Running array operations *)

Section ArrayRuns.

Variables (c : Date) (h : gmap loc (list value)) (l : loc).

Lemma read_with_array (a : list value) :
  read l (with_array c h l a) = Some (a, with_array c h l a).
Proof. unfold read, with_array. simpl. by rewrite lookup_insert_eq. Qed.

Lemma write_with_array (a a' : list value) :
  write l a' (with_array c h l a) = Some (tt, with_array c h l a').
Proof. unfold write, with_array. simpl. by rewrite insert_insert_eq. Qed.

Lemma Array_pop_with_array (a : list value) :
  Array_pop l (with_array c h l a)
  = Some (default VUndefined (last a), with_array c h l (removelast a)).
Proof.
  unfold Array_pop, bind. rewrite read_with_array.
  destruct (last a) as [v|] eqn:Hlast.
  - by rewrite write_with_array.
  - apply last_None in Hlast. by subst a.
Qed.

Lemma Array_push_with_array (a : list value) (v : value) :
  Array_push l v (with_array c h l a)
  = Some (Z.of_nat (length (a ++ [v])), with_array c h l (a ++ [v])).
Proof.
  unfold Array_push, bind. rewrite read_with_array.
  by rewrite write_with_array.
Qed.

Lemma Array_length_with_array (a : list value) :
  Array_length l (with_array c h l a)
  = Some (Z.of_nat (length a), with_array c h l a).
Proof. unfold Array_length, bind. by rewrite read_with_array. Qed.

Lemma Array_map_with_array {B : Type} (f : value -> B) (a : list value) :
  Array_map f l (with_array c h l a)
  = Some (map f a, with_array c h l a).
Proof. unfold Array_map, bind. by rewrite read_with_array. Qed.

End ArrayRuns.

Lemma alloc_run (w : World) (a : list value) :
  alloc a w
  = Some (fresh (dom (heap w)),
          with_array (clock w) (heap w) (fresh (dom (heap w))) a)
    /\ heap w !! fresh (dom (heap w)) = None.
Proof.
  split; [reflexivity |].
  apply not_elem_of_dom. apply is_fresh.
Qed.

Lemma Array_slice_run (w : World) (l : loc) (a : list value) :
  heap w !! l = Some a ->
  Array_slice l w
  = Some (fresh (dom (heap w)),
          with_array (clock w) (heap w) (fresh (dom (heap w))) a).
Proof.
  intros Hl. unfold Array_slice, bind, read. rewrite Hl. apply alloc_run.
Qed.

(** ** Rounding to double precision *)

Lemma round_nat_small (n : Z) : 0 <= n < 2 ^ 53 -> Num.round_nat n = n.
Proof.
  intros Hn. unfold Num.round_nat.
  assert (Hlog : Z.log2 n <= 52).
  { destruct (Z.eq_dec n 0) as [-> | Hne]; [simpl; lia |].
    apply Z.lt_succ_r, Z.log2_lt_pow2; lia. }
  destruct (Z.leb_spec (Z.log2 n - 52) 0); [reflexivity | lia].
Qed.

(** Below [2^53] in magnitude every integer is a double. *)
Lemma round_small (z : Z) : - 2 ^ 53 < z < 2 ^ 53 -> Num.round z = Int z.
Proof.
  intros Hz. unfold Num.round.
  rewrite round_nat_small by lia.
  assert (Hmax : 2 ^ 53 <= Num.double_max) by (vm_compute; discriminate).
  destruct (Z.ltb_spec Num.double_max (Z.abs z)); [lia |].
  f_equal. lia.
Qed.





(** ** [parseInt] reads integers back *)












(** ** [timeRange] runs to its functional reading *)

Lemma new_Date_with_array (c : Date) (h : gmap loc (list value)) (l : loc)
    (a : list value) :
  new_Date (with_array c h l a) = Some (c, with_array c h l a).
Proof. reflexivity. Qed.

Lemma dispatch_by_length (gmt : bool) (d : Date) (nums : list number) :
  (let noOfArgs := Z.of_nat (length nums) in
   if noOfArgs =? 1 then
     (TimeRange.getCurrentHour gmt d === nums.[0])%num
   else if noOfArgs =? 2 then
     (nums.[0] <= TimeRange.getCurrentHour gmt d)%num
     && (TimeRange.getCurrentHour gmt d < nums.[1])%num
   else if noOfArgs =? 4 then
     TimeRange.valueInRange
       (TimeRange.secondsElapsedToday nums.[0] nums.[1] 0)
       (TimeRange.secondsElapsedToday (TimeRange.getCurrentHour gmt d)
          (TimeRange.getCurrentMinute gmt d) 0)
       (TimeRange.secondsElapsedToday nums.[2] nums.[3] 59)
   else if noOfArgs =? 6 then
     TimeRange.valueInRange
       (TimeRange.secondsElapsedToday nums.[0] nums.[1] nums.[2])
       (TimeRange.secondsElapsedToday (TimeRange.getCurrentHour gmt d)
          (TimeRange.getCurrentMinute gmt d)
          (TimeRange.getCurrentSecond gmt d))
       (TimeRange.secondsElapsedToday nums.[3] nums.[4] nums.[5])
   else false)
  = TimeRangeFun.dispatch gmt d nums.
Proof.
  destruct nums as [|n0 [|n1 [|n2 [|n3 [|n4 [|n5 [|n6 nums]]]]]]];
    try reflexivity.
  cbv zeta.
  assert (H : forall k, 7 <= Z.of_nat (length (n0 :: n1 :: n2 :: n3 :: n4
                          :: n5 :: n6 :: nums)) -> k < 7 ->
                        (Z.of_nat (length (n0 :: n1 :: n2 :: n3 :: n4
                          :: n5 :: n6 :: nums)) =? k) = false).
  { intros k H1 H2. apply Z.eqb_neq. lia. }
  rewrite !H by (simpl length; lia). reflexivity.
Qed.

Lemma timeRange_run (arguments : loc) (args : list value) (w : World) :
  heap w !! arguments = Some args ->
  TimeRange.timeRange arguments w
  = Some (TimeRangeFun.timeRange args (clock w),
          with_array (clock w) (heap w) (fresh (dom (heap w)))
            (TimeRangeFun.kept args)).
Proof.
  intros Hargs. unfold TimeRange.timeRange.
  unfold bind at 1. rewrite (Array_slice_run _ _ _ Hargs).
  unfold bind at 1. rewrite Array_pop_with_array.
  unfold bind at 1. rewrite new_Date_with_array.
  fold (TimeRangeFun.useGMTzone args).
  assert (Hwhen :
    (when (negb (TimeRangeFun.useGMTzone args))
       (Array_push (fresh (dom (heap w))) (default VUndefined (last args))))
      (with_array (clock w) (heap w) (fresh (dom (heap w)))
         (removelast args))
    = Some (tt, with_array (clock w) (heap w) (fresh (dom (heap w)))
                  (TimeRangeFun.kept args))).
  { unfold when, TimeRangeFun.kept.
    destruct (TimeRangeFun.useGMTzone args); simpl; [reflexivity |].
    unfold bind. by rewrite Array_push_with_array. }
  unfold bind at 1. rewrite Hwhen.
  unfold bind at 1. rewrite Array_length_with_array.
  unfold bind at 1. rewrite Array_map_with_array.
  unfold TimeRangeFun.timeRange.
  rewrite <- dispatch_by_length. cbv zeta. rewrite length_map.
  unfold ret.
  repeat match goal with |- context [if ?b then _ else _] =>
    destruct b end; reflexivity.
Qed.

Lemma call_run (args : list value) (w : World) :
  exists w',
    TimeRange.call args w
    = Some (TimeRangeFun.timeRange args (clock w), w')
    /\ clock w' = clock w
    /\ forall (l : loc) (a : list value),
         heap w !! l = Some a -> heap w' !! l = Some a.
Proof.
  destruct (alloc_run w args) as [Halloc Hfresh].
  set (l := fresh (dom (heap w))) in *.
  eexists. split; [| split].
  - unfold TimeRange.call, bind. rewrite Halloc.
    rewrite (timeRange_run l args (with_array (clock w) (heap w) l args))
      by apply lookup_insert_eq.
    reflexivity.
  - reflexivity.
  - intros k a Hk. simpl.
    assert (Hne1 : l <> k) by (intros ->; congruence).
    rewrite lookup_insert_ne.
    + by rewrite lookup_insert_ne.
    + intros E.
      pose proof (is_fresh (dom (<[l:=args]> (heap w)))) as Hf.
      rewrite E in Hf. apply Hf. apply elem_of_dom.
      rewrite lookup_insert_ne by done. eauto.
Qed.

Lemma call_result (args : list value) (w : World) :
  result_of (TimeRange.call args) w
  = Some (TimeRangeFun.timeRange args (clock w)).
Proof.
  destruct (call_run args w) as (w' & Hrun & _).
  unfold result_of. by rewrite Hrun.
Qed.

(** ** The marker and the arguments that remain *)

Lemma useGMTzone_marker (args : list value) :
  TimeRangeFun.useGMTzone (args ++ [VStr "GMT"]) = true.
Proof. unfold TimeRangeFun.useGMTzone. by rewrite last_snoc. Qed.

Lemma kept_marker (args : list value) :
  TimeRangeFun.kept (args ++ [VStr "GMT"]) = args.
Proof.
  unfold TimeRangeFun.kept. rewrite useGMTzone_marker.
  apply removelast_last.
Qed.

Lemma useGMTzone_other (args : list value) (v : value) :
  v <> VStr "GMT" -> TimeRangeFun.useGMTzone (args ++ [v]) = false.
Proof.
  intros Hv. unfold TimeRangeFun.useGMTzone. rewrite last_snoc. simpl.
  by apply strict_eq_VStr_false.
Qed.

Lemma kept_other (args : list value) (v : value) :
  v <> VStr "GMT" -> TimeRangeFun.kept (args ++ [v]) = args ++ [v].
Proof.
  intros Hv. unfold TimeRangeFun.kept. rewrite (useGMTzone_other _ _ Hv).
  rewrite removelast_last, last_snoc. reflexivity.
Qed.

Lemma parseInt_not_marker (v : value) (z : Z) :
  parseInt v 10 = Int z -> v <> VStr "GMT".
Proof. intros H ->. discriminate H. Qed.

(** With the marker: the arguments before it, on the UTC clock. *)
Lemma timeRange_fun_marker (args : list value) (d : Date) :
  TimeRangeFun.timeRange (args ++ [VStr "GMT"]) d
  = TimeRangeFun.dispatch true d (map (fun n => parseInt n 10) args).
Proof.
  unfold TimeRangeFun.timeRange.
  by rewrite useGMTzone_marker, kept_marker.
Qed.

(** Without it: all the arguments, on the local clock. *)
Lemma timeRange_fun_other (args : list value) (v : value) (d : Date) :
  v <> VStr "GMT" ->
  TimeRangeFun.timeRange (args ++ [v]) d
  = TimeRangeFun.dispatch false d
      (map (fun n => parseInt n 10) (args ++ [v])).
Proof.
  intros Hv. unfold TimeRangeFun.timeRange.
  by rewrite (useGMTzone_other _ _ Hv), (kept_other _ _ Hv).
Qed.

(** A call whose last numeric argument parses, with or without the
    marker after it. *)
Lemma timeRange_fun_zone (args : list value) (v : value) (z : Z)
    (gmt : bool) (d : Date) :
  parseInt v 10 = Int z ->
  TimeRangeFun.timeRange ((args ++ [v]) ++ zone gmt) d
  = TimeRangeFun.dispatch gmt d
      (map (fun n => parseInt n 10) (args ++ [v])).
Proof.
  intros Hv. destruct gmt; simpl zone.
  - apply timeRange_fun_marker.
  - rewrite app_nil_r. apply timeRange_fun_other.
    by apply (parseInt_not_marker _ z).
Qed.

Lemma getCurrentHour_Int (gmt : bool) (d : Date) :
  TimeRange.getCurrentHour gmt d = Int (hour_now gmt d).
Proof. by destruct gmt. Qed.

Lemma getCurrentMinute_Int (gmt : bool) (d : Date) :
  TimeRange.getCurrentMinute gmt d = Int (minute_now gmt d).
Proof. by destruct gmt. Qed.

Lemma getCurrentSecond_Int (gmt : bool) (d : Date) :
  TimeRange.getCurrentSecond gmt d = Int (second_now gmt d).
Proof. by destruct gmt. Qed.

Lemma hour_now_range (gmt : bool) (d : Date) : 0 <= hour_now gmt d < 24.
Proof. destruct gmt; apply HourFromTime_range. Qed.

Lemma minute_now_range (gmt : bool) (d : Date) : 0 <= minute_now gmt d < 60.
Proof. destruct gmt; apply MinFromTime_range. Qed.

Lemma second_now_range (gmt : bool) (d : Date) : 0 <= second_now gmt d < 60.
Proof. destruct gmt; apply SecFromTime_range. Qed.

Lemma day_now_range (gmt : bool) (d : Date) : 0 <= day_now gmt d < 7.
Proof. destruct gmt; apply WeekDay_range. Qed.

Lemma valueInRange_Int (a x b : Z) :
  TimeRange.valueInRange a x b = true <-> a <= x <= b.
Proof.
  unfold TimeRange.valueInRange. rewrite andb_true_iff.
  by rewrite !Num_le_Int.
Qed.

(** The two-, four- and six-argument forms, once their arguments parse. *)

Lemma two_arguments (a1 a2 : value) (hour1 hour2 : Z) (gmt : bool)
    (w : World) :
  parseInt a1 10 = Int hour1 -> parseInt a2 10 = Int hour2 ->
  result_of (TimeRange.call ([a1; a2] ++ zone gmt)) w
  = Some ((hour1 <=? hour_now gmt (clock w))
          && (hour_now gmt (clock w) <? hour2)).
Proof.
  intros H1 H2. rewrite call_result.
  change [a1; a2] with ([a1] ++ [a2]).
  rewrite (timeRange_fun_zone _ _ _ _ _ H2). simpl map. rewrite H1, H2.
  unfold TimeRangeFun.dispatch. by rewrite getCurrentHour_Int.
Qed.

(** Within [in_range] the seconds elapsed are computed without
    rounding. *)
Lemma secondsElapsedToday_exact (h m s : Z) :
  in_range h -> in_range m -> in_range s ->
  TimeRange.secondsElapsedToday h m s = Int (seconds_elapsed h m s).
Proof.
  unfold in_range, TimeRange.secondsElapsedToday, seconds_elapsed.
  intros Hh Hm Hs. cbn [Num.mul Num.add].
  rewrite (round_small (h * 3600)), (round_small (m * 60)) by lia.
  cbn [Num.add]. rewrite (round_small (h * 3600 + m * 60)) by lia.
  cbn [Num.add]. apply round_small. lia.
Qed.

Lemma in_range_hour (gmt : bool) (d : Date) : in_range (hour_now gmt d).
Proof. pose proof (hour_now_range gmt d). unfold in_range. lia. Qed.

Lemma in_range_minute (gmt : bool) (d : Date) : in_range (minute_now gmt d).
Proof. pose proof (minute_now_range gmt d). unfold in_range. lia. Qed.

Lemma in_range_second (gmt : bool) (d : Date) : in_range (second_now gmt d).
Proof. pose proof (second_now_range gmt d). unfold in_range. lia. Qed.

Lemma in_range_0 : in_range 0.
Proof. unfold in_range. lia. Qed.

Lemma in_range_59 : in_range 59.
Proof. unfold in_range. lia. Qed.

Lemma timeRange_fun_any_zone (args : list value) (v : value) (gmt : bool)
    (d : Date) :
  v <> VStr "GMT" ->
  TimeRangeFun.timeRange ((args ++ [v]) ++ zone gmt) d
  = TimeRangeFun.dispatch gmt d
      (map (fun n => parseInt n 10) (args ++ [v])).
Proof.
  intros Hv. destruct gmt; simpl zone.
  - apply timeRange_fun_marker.
  - rewrite app_nil_r. by apply timeRange_fun_other.
Qed.

Lemma one_argument (a : value) (hour : Z) (gmt : bool) (w : World) :
  parseInt a 10 = Int hour ->
  result_of (TimeRange.call ([a] ++ zone gmt)) w
  = Some (hour_now gmt (clock w) =? hour).
Proof.
  intros H. rewrite call_result.
  change [a] with ([] ++ [a]).
  rewrite (timeRange_fun_zone _ _ _ _ _ H). simpl map. rewrite H.
  unfold TimeRangeFun.dispatch. by rewrite getCurrentHour_Int.
Qed.

(** The four- and six-argument forms on any arguments: the range test
    on the three instants as the code computes them. *)
Lemma four_arguments_computed (a1 a2 a3 a4 : value) (gmt : bool)
    (w : World) :
  a4 <> VStr "GMT" ->
  result_of (TimeRange.call ([a1; a2; a3; a4] ++ zone gmt)) w
  = Some (TimeRange.valueInRange
            (TimeRange.secondsElapsedToday
               (parseInt a1 10) (parseInt a2 10) 0)
            (TimeRange.secondsElapsedToday
               (hour_now gmt (clock w)) (minute_now gmt (clock w)) 0)
            (TimeRange.secondsElapsedToday
               (parseInt a3 10) (parseInt a4 10) 59)).
Proof.
  intros H4. rewrite call_result.
  change [a1; a2; a3; a4] with ([a1; a2; a3] ++ [a4]).
  rewrite (timeRange_fun_any_zone _ _ _ _ H4). simpl map.
  unfold TimeRangeFun.dispatch.
  by rewrite getCurrentHour_Int, getCurrentMinute_Int.
Qed.

Lemma six_arguments_computed (a1 a2 a3 a4 a5 a6 : value) (gmt : bool)
    (w : World) :
  a6 <> VStr "GMT" ->
  result_of (TimeRange.call ([a1; a2; a3; a4; a5; a6] ++ zone gmt)) w
  = Some (TimeRange.valueInRange
            (TimeRange.secondsElapsedToday
               (parseInt a1 10) (parseInt a2 10) (parseInt a3 10))
            (TimeRange.secondsElapsedToday
               (hour_now gmt (clock w)) (minute_now gmt (clock w))
               (second_now gmt (clock w)))
            (TimeRange.secondsElapsedToday
               (parseInt a4 10) (parseInt a5 10) (parseInt a6 10))).
Proof.
  intros H6. rewrite call_result.
  change [a1; a2; a3; a4; a5; a6] with ([a1; a2; a3; a4; a5] ++ [a6]).
  rewrite (timeRange_fun_any_zone _ _ _ _ H6). simpl map.
  unfold TimeRangeFun.dispatch.
  by rewrite getCurrentHour_Int, getCurrentMinute_Int,
    getCurrentSecond_Int.
Qed.

(** The same forms on arguments within [in_range], where the instants
    are the exact sums. *)
Lemma four_arguments (a1 a2 a3 a4 : value) (hour1 min1 hour2 min2 : Z)
    (gmt : bool) (w : World) :
  parseInt a1 10 = Int hour1 -> parseInt a2 10 = Int min1 ->
  parseInt a3 10 = Int hour2 -> parseInt a4 10 = Int min2 ->
  in_range hour1 -> in_range min1 -> in_range hour2 -> in_range min2 ->
  result_of (TimeRange.call ([a1; a2; a3; a4] ++ zone gmt)) w
  = Some (TimeRange.valueInRange
            (seconds_elapsed hour1 min1 0)
            (seconds_elapsed (hour_now gmt (clock w))
               (minute_now gmt (clock w)) 0)
            (seconds_elapsed hour2 min2 59)).
Proof.
  intros H1 H2 H3 H4 R1 R2 R3 R4.
  rewrite four_arguments_computed by (by apply (parseInt_not_marker _ min2)).
  rewrite H1, H2, H3, H4.
  by rewrite !secondsElapsedToday_exact
    by auto using in_range_hour, in_range_minute, in_range_0, in_range_59.
Qed.

Lemma six_arguments (a1 a2 a3 a4 a5 a6 : value)
    (hour1 min1 sec1 hour2 min2 sec2 : Z) (gmt : bool) (w : World) :
  parseInt a1 10 = Int hour1 -> parseInt a2 10 = Int min1 ->
  parseInt a3 10 = Int sec1 -> parseInt a4 10 = Int hour2 ->
  parseInt a5 10 = Int min2 -> parseInt a6 10 = Int sec2 ->
  in_range hour1 -> in_range min1 -> in_range sec1 ->
  in_range hour2 -> in_range min2 -> in_range sec2 ->
  result_of (TimeRange.call ([a1; a2; a3; a4; a5; a6] ++ zone gmt)) w
  = Some (TimeRange.valueInRange
            (seconds_elapsed hour1 min1 sec1)
            (seconds_now gmt (clock w))
            (seconds_elapsed hour2 min2 sec2)).
Proof.
  intros H1 H2 H3 H4 H5 H6 R1 R2 R3 R4 R5 R6.
  rewrite six_arguments_computed by (by apply (parseInt_not_marker _ sec2)).
  rewrite H1, H2, H3, H4, H5, H6.
  by rewrite !secondsElapsedToday_exact
    by auto using in_range_hour, in_range_minute, in_range_second.
Qed.

(** Dropping the current second does not move a reading across a bound
    that is a whole minute, or a whole minute and 59 seconds. *)
Lemma whole_minute_bounds (hour1 min1 hour2 min2 h m s : Z) :
  0 <= s < 60 ->
  (seconds_elapsed hour1 min1 0 <= seconds_elapsed h m 0
     <= seconds_elapsed hour2 min2 59)
  <-> (seconds_elapsed hour1 min1 0 <= seconds_elapsed h m s
     <= seconds_elapsed hour2 min2 59).
Proof. unfold seconds_elapsed. lia. Qed.

(** ** Arity dispatch *)

Lemma dispatch_other_arity (gmt : bool) (d : Date) (nums : list number) :
  length nums <> 1%nat -> length nums <> 2%nat ->
  length nums <> 4%nat -> length nums <> 6%nat ->
  TimeRangeFun.dispatch gmt d nums = false.
Proof.
  destruct nums as [|n0 [|n1 [|n2 [|n3 [|n4 [|n5 [|n6 nums]]]]]]];
    simpl; intros; congruence.
Qed.

Lemma add_NaN_l (a : number) : (NaN + a)%num = NaN.
Proof. reflexivity. Qed.

Lemma add_NaN_r (a : number) : (a + NaN)%num = NaN.
Proof. by destruct a. Qed.

Lemma mul_NaN_l (a : number) : (NaN * a)%num = NaN.
Proof. reflexivity. Qed.

Lemma secondsElapsedToday_NaN (hh mm ss : number) :
  hh = NaN \/ mm = NaN \/ ss = NaN ->
  TimeRange.secondsElapsedToday hh mm ss = NaN.
Proof.
  unfold TimeRange.secondsElapsedToday.
  intros [-> | [-> | ->]];
    by rewrite ?mul_NaN_l, ?add_NaN_l, ?add_NaN_r, ?add_NaN_l.
Qed.

Lemma le_NaN_l (a : number) : (NaN <= a)%num = false.
Proof. reflexivity. Qed.

Lemma le_NaN_r (a : number) : (a <= NaN)%num = false.
Proof. by destruct a. Qed.

Lemma lt_NaN_r (a : number) : (a < NaN)%num = false.
Proof. by destruct a. Qed.

Lemma valueInRange_NaN (start value finish : number) :
  start = NaN \/ value = NaN \/ finish = NaN ->
  TimeRange.valueInRange start value finish = false.
Proof.
  intros [-> | [-> | ->]]; unfold TimeRange.valueInRange;
    rewrite ?le_NaN_l, ?le_NaN_r, ?andb_false_r; reflexivity.
Qed.

Lemma dispatch_NaN (gmt : bool) (d : Date) (nums : list number) :
  NaN ∈ nums -> TimeRangeFun.dispatch gmt d nums = false.
Proof.
  intros Hin.
  destruct nums as [|n0 [|n1 [|n2 [|n3 [|n4 [|n5 [|n6 nums]]]]]]];
    try reflexivity; unfold TimeRangeFun.dispatch;
    rewrite ?getCurrentHour_Int.
  - apply elem_of_cons in Hin as [<- | Hin];
      [reflexivity | by apply elem_of_nil in Hin].
  - repeat (apply elem_of_cons in Hin as [<- | Hin]);
      [reflexivity | | by apply elem_of_nil in Hin].
    rewrite lt_NaN_r. apply andb_false_r.
  - apply valueInRange_NaN.
    repeat (apply elem_of_cons in Hin as [<- | Hin]);
      [left | left | right; right | right; right
      | by apply elem_of_nil in Hin];
      apply secondsElapsedToday_NaN; auto.
  - apply valueInRange_NaN.
    repeat (apply elem_of_cons in Hin as [<- | Hin]);
      [left | left | left | right; right | right; right | right; right
      | by apply elem_of_nil in Hin];
      apply secondsElapsedToday_NaN; auto.
Qed.

Lemma without_marker_snoc_marker (args : list value) :
  without_marker (args ++ [VStr "GMT"]) = args.
Proof.
  unfold without_marker. rewrite last_snoc.
  rewrite decide_True by reflexivity. apply removelast_last.
Qed.

Lemma without_marker_snoc_other (args : list value) (v : value) :
  v <> VStr "GMT" -> without_marker (args ++ [v]) = args ++ [v].
Proof.
  intros Hv. unfold without_marker. rewrite last_snoc.
  rewrite decide_False by congruence. reflexivity.
Qed.

(** What the call dispatches on, in terms of the argument list without
    its marker. Without any argument, [pop] and [push] leave the one
    element [undefined]. *)
Lemma timeRange_fun_without_marker (args : list value) (d : Date) :
  TimeRangeFun.timeRange args d
  = TimeRangeFun.dispatch (TimeRangeFun.useGMTzone args) d
      (map (fun n => parseInt n 10)
         (match args with [] => [VUndefined] | _ => without_marker args end)).
Proof.
  destruct args as [|a args _] using rev_ind; [reflexivity |].
  destruct (decide (a = VStr "GMT")) as [-> | Hne].
  - rewrite timeRange_fun_marker, useGMTzone_marker,
      without_marker_snoc_marker.
    by destruct args.
  - rewrite (timeRange_fun_other _ _ _ Hne), (useGMTzone_other _ _ Hne),
      (without_marker_snoc_other _ _ Hne).
    by destruct args.
Qed.

(** ** The zone a call reads *)

Lemma dispatch_reads (gmt gmt' : bool) (d d' : Date) (nums : list number) :
  hour_now gmt d = hour_now gmt' d' ->
  minute_now gmt d = minute_now gmt' d' ->
  second_now gmt d = second_now gmt' d' ->
  TimeRangeFun.dispatch gmt d nums = TimeRangeFun.dispatch gmt' d' nums.
Proof.
  intros Hh Hm Hs. unfold TimeRangeFun.dispatch.
  by rewrite !getCurrentHour_Int, !getCurrentMinute_Int,
    !getCurrentSecond_Int, Hh, Hm, Hs.
Qed.

Lemma timeRange_fun_not_marker (args : list value) (d : Date) :
  last args <> Some (VStr "GMT") ->
  TimeRangeFun.timeRange args d
  = TimeRangeFun.dispatch false d
      (map (fun n => parseInt n 10)
         (match args with [] => [VUndefined] | _ => args end)).
Proof.
  intros Hlast.
  destruct args as [|a args _] using rev_ind; [reflexivity |].
  rewrite last_snoc in Hlast.
  rewrite timeRange_fun_other by congruence. by destruct args.
Qed.

(** ** What [timeRange] returns *)

(** A window whose end is before its start holds no value. *)
Lemma valueInRange_reversed (start value finish : number) :
  (finish < start)%num = true ->
  TimeRange.valueInRange start value finish = false.
Proof.
  unfold TimeRange.valueInRange. intros H.
  destruct start, value, finish; simpl in *;
    try discriminate H; try (rewrite ?andb_false_r; reflexivity).
  apply Z.ltb_lt in H. apply not_true_is_false.
  rewrite andb_true_iff, !Z.leb_le. lia.
Qed.

Lemma lt_not_NaN_l (a b : number) : (a < b)%num = true -> a <> NaN.
Proof. intros H ->. discriminate H. Qed.

(** C1, as the code has it: the four- and six-argument forms do not
    treat a window whose start instant exceeds its end instant as one
    that spans midnight. Both test [start <= now <= end] on the instants
    [hh*3600 + mm*60 + ss] and nothing else, so such a window is empty
    and the result is false whatever the clock reads. This holds of the
    instants as the code computes them, for any arguments; for arguments
    up to [10^12] in magnitude, where the sums are exact, the result is
    true exactly when now's seconds elapsed today lie from start to
    end. *)
Theorem C1_no_wraparound_in_timeRange :
  (forall (a1 a2 a3 a4 : value) (gmt : bool) (w : World),
      (TimeRange.secondsElapsedToday (parseInt a3 10) (parseInt a4 10) 59
       < TimeRange.secondsElapsedToday (parseInt a1 10) (parseInt a2 10) 0)%num
      = true ->
      result_of (TimeRange.call ([a1; a2; a3; a4] ++ zone gmt)) w
      = Some false)
  /\ (forall (a1 a2 a3 a4 a5 a6 : value) (gmt : bool) (w : World),
        (TimeRange.secondsElapsedToday
           (parseInt a4 10) (parseInt a5 10) (parseInt a6 10)
         < TimeRange.secondsElapsedToday
             (parseInt a1 10) (parseInt a2 10) (parseInt a3 10))%num
        = true ->
        result_of (TimeRange.call ([a1; a2; a3; a4; a5; a6] ++ zone gmt)) w
        = Some false)
  /\ (forall (a1 a2 a3 a4 : value) (hour1 min1 hour2 min2 : Z) (gmt : bool)
             (w : World),
        parseInt a1 10 = Int hour1 -> parseInt a2 10 = Int min1 ->
        parseInt a3 10 = Int hour2 -> parseInt a4 10 = Int min2 ->
        in_range hour1 -> in_range min1 ->
        in_range hour2 -> in_range min2 ->
        exists b : bool,
          result_of (TimeRange.call ([a1; a2; a3; a4] ++ zone gmt)) w
          = Some b
          /\ (b = true <->
              seconds_elapsed hour1 min1 0 <= seconds_now gmt (clock w)
                <= seconds_elapsed hour2 min2 59)
          /\ (seconds_elapsed hour1 min1 0 > seconds_elapsed hour2 min2 59 ->
              b = false))
  /\ (forall (a1 a2 a3 a4 a5 a6 : value)
             (hour1 min1 sec1 hour2 min2 sec2 : Z) (gmt : bool) (w : World),
        parseInt a1 10 = Int hour1 -> parseInt a2 10 = Int min1 ->
        parseInt a3 10 = Int sec1 -> parseInt a4 10 = Int hour2 ->
        parseInt a5 10 = Int min2 -> parseInt a6 10 = Int sec2 ->
        in_range hour1 -> in_range min1 -> in_range sec1 ->
        in_range hour2 -> in_range min2 -> in_range sec2 ->
        exists b : bool,
          result_of
            (TimeRange.call ([a1; a2; a3; a4; a5; a6] ++ zone gmt)) w
          = Some b
          /\ (b = true <->
              seconds_elapsed hour1 min1 sec1 <= seconds_now gmt (clock w)
                <= seconds_elapsed hour2 min2 sec2)
          /\ (seconds_elapsed hour1 min1 sec1
                > seconds_elapsed hour2 min2 sec2 ->
              b = false)).
Proof.
  split; [| split; [| split]].
  - intros a1 a2 a3 a4 gmt w Hwrap.
    rewrite four_arguments_computed.
    + f_equal. by apply valueInRange_reversed.
    + intros ->. apply lt_not_NaN_l in Hwrap. apply Hwrap.
      apply secondsElapsedToday_NaN. right. left. reflexivity.
  - intros a1 a2 a3 a4 a5 a6 gmt w Hwrap.
    rewrite six_arguments_computed.
    + f_equal. by apply valueInRange_reversed.
    + intros ->. apply lt_not_NaN_l in Hwrap. apply Hwrap.
      apply secondsElapsedToday_NaN. right. right. reflexivity.
  - intros a1 a2 a3 a4 hour1 min1 hour2 min2 gmt w H1 H2 H3 H4
      R1 R2 R3 R4.
    eexists. split; [by apply four_arguments |].
    assert (Hiff :
      TimeRange.valueInRange (seconds_elapsed hour1 min1 0)
        (seconds_elapsed (hour_now gmt (clock w))
           (minute_now gmt (clock w)) 0)
        (seconds_elapsed hour2 min2 59) = true
      <-> seconds_elapsed hour1 min1 0 <= seconds_now gmt (clock w)
            <= seconds_elapsed hour2 min2 59).
    { rewrite valueInRange_Int.
      apply whole_minute_bounds, second_now_range. }
    split; [exact Hiff |].
    intros Hwrap. apply not_true_is_false. rewrite Hiff. lia.
  - intros a1 a2 a3 a4 a5 a6 hour1 min1 sec1 hour2 min2 sec2 gmt w
      H1 H2 H3 H4 H5 H6 R1 R2 R3 R4 R5 R6.
    eexists. split; [by apply six_arguments |].
    split; [apply valueInRange_Int |].
    intros Hwrap. apply not_true_is_false. rewrite valueInRange_Int. lia.
Qed.

Lemma C1_witness :
  result_of
    (TimeRange.call ([VNum 23; VNum 0; VNum 1; VNum 0] ++ zone false))
    (world_at (instant 4 23 30 0) 0) = Some false
  /\ result_of
       (TimeRange.call
          ([VStr "9007199254740993"; VStr "-540431955284459520";
            VStr "0"; VStr "0"; VStr "0"; VStr "-1"] ++ zone true))
       (world_at (instant 5 0 30 0) 0) = Some false
  /\ (exists b : bool,
        result_of
          (TimeRange.call ([VNum 23; VNum 0; VNum 1; VNum 0] ++ zone false))
          (world_at (instant 4 23 30 0) 0) = Some b
        /\ (b = true <->
            seconds_elapsed 23 0 0
              <= seconds_now false (clock (world_at (instant 4 23 30 0) 0))
              <= seconds_elapsed 1 0 59)
        /\ (seconds_elapsed 23 0 0 > seconds_elapsed 1 0 59 -> b = false))
  /\ (exists b : bool,
        result_of
          (TimeRange.call
             ([VStr "23"; VStr "00"; VStr "00"; VStr "01"; VStr "00";
               VStr "00"] ++ zone true))
          (world_at (instant 5 0 30 0) 0) = Some b
        /\ (b = true <->
            seconds_elapsed 23 0 0
              <= seconds_now true (clock (world_at (instant 5 0 30 0) 0))
              <= seconds_elapsed 1 0 0)
        /\ (seconds_elapsed 23 0 0 > seconds_elapsed 1 0 0 -> b = false)).
Proof.
  destruct C1_no_wraparound_in_timeRange as (Hfour & Hsix & Hfour' & Hsix').
  split; [| split; [| split]].
  - apply Hfour. vm_compute. reflexivity.
  - apply Hsix. vm_compute. reflexivity.
  - apply (Hfour' (VNum 23) (VNum 0) (VNum 1) (VNum 0) 23 0 1 0);
      (vm_compute; reflexivity) || (unfold in_range; lia).
  - apply (Hsix' (VStr "23") (VStr "00") (VStr "00") (VStr "01")
             (VStr "00") (VStr "00") 23 0 0 1 0 0);
      (vm_compute; reflexivity) || (unfold in_range; lia).
Defined.

(** The window 23:00 to 01:00 at 23:30:00 and at 00:30:00: the reading
    lies after the start, or before the end, and the call answers
    false. *)
Lemma C1_counterexample :
  let args := [VNum 23; VNum 0; VNum 1; VNum 0] in
  let late := world_at (instant 4 23 30 0) 0 in
  let early := world_at (instant 5 0 30 0) 0 in
  seconds_elapsed 23 0 0 > seconds_elapsed 1 0 59
  /\ seconds_now false (clock late) = seconds_elapsed 23 30 0
  /\ seconds_now false (clock early) = seconds_elapsed 0 30 0
  /\ ~ (result_of (TimeRange.call args) late = Some true <->
        seconds_now false (clock late) >= seconds_elapsed 23 0 0
        \/ seconds_now false (clock late) <= seconds_elapsed 1 0 59)
  /\ ~ (result_of (TimeRange.call args) early = Some true <->
        seconds_now false (clock early) >= seconds_elapsed 23 0 0
        \/ seconds_now false (clock early) <= seconds_elapsed 1 0 59).
Proof.
  cbv zeta. split; [reflexivity |]. split; [reflexivity |].
  split; [reflexivity |].
  split; intros [_ H]; (assert (Hres : Some false = Some true)
    by (apply H; vm_compute; (left + right); discriminate));
    discriminate Hres.
Qed.

(** C4: the two-argument form [timeRange(hour1, hour2)] is true exactly
    when [hour1 <= currentHour < hour2]: the upper bound is excluded, so
    at [currentHour = hour2] the result is false, and at
    [currentHour = hour1] (of a window that is not empty) it is true. The
    four- and six-argument forms include their end: at [hour2:00:00]
    they answer true where the two-argument form answers false. *)
Theorem C4_two_arguments_half_open (a1 a2 : value) (hour1 hour2 : Z)
    (gmt : bool) (w : World) :
  parseInt a1 10 = Int hour1 -> parseInt a2 10 = Int hour2 ->
  exists b : bool,
    result_of (TimeRange.call ([a1; a2] ++ zone gmt)) w = Some b
    /\ (b = true <-> hour1 <= hour_now gmt (clock w) < hour2)
    /\ (hour_now gmt (clock w) = hour2 -> b = false)
    /\ (hour_now gmt (clock w) = hour1 -> hour1 < hour2 -> b = true)
    /\ (seconds_now gmt (clock w) = seconds_elapsed hour2 0 0 ->
        hour1 <= hour2 -> in_range hour1 ->
        b = false
        /\ result_of
             (TimeRange.call ([a1; VNum 0; a2; VNum 0] ++ zone gmt)) w
           = Some true
        /\ result_of
             (TimeRange.call
                ([a1; VNum 0; VNum 0; a2; VNum 0; VNum 0] ++ zone gmt)) w
           = Some true).
Proof.
  intros H1 H2. eexists. split; [by apply two_arguments |].
  rewrite andb_true_iff, Z.leb_le, Z.ltb_lt.
  split; [reflexivity |]. split; [| split].
  - intros Hnow. apply andb_false_iff. right. apply Z.ltb_ge. lia.
  - intros Hnow Hlt. lia.
  - intros Hnow Hle R1.
    pose proof (hour_now_range gmt (clock w)) as Hh.
    pose proof (minute_now_range gmt (clock w)) as Hm.
    pose proof (second_now_range gmt (clock w)) as Hs.
    unfold seconds_now, seconds_elapsed in Hnow.
    assert (Hhour : hour_now gmt (clock w) = hour2) by lia.
    assert (Hmin : minute_now gmt (clock w) = 0) by lia.
    assert (Hsec : second_now gmt (clock w) = 0) by lia.
    assert (R2 : in_range hour2) by (unfold in_range; lia).
    split; [| split].
    + apply andb_false_iff. right. apply Z.ltb_ge. lia.
    + rewrite (four_arguments a1 (VNum 0) a2 (VNum 0) hour1 0 hour2 0)
        by (assumption || reflexivity || apply in_range_0).
      f_equal. apply valueInRange_Int. rewrite Hhour, Hmin.
      unfold seconds_elapsed. lia.
    + rewrite (six_arguments a1 (VNum 0) (VNum 0) a2 (VNum 0) (VNum 0)
                 hour1 0 0 hour2 0 0)
        by (assumption || reflexivity || apply in_range_0).
      f_equal. apply valueInRange_Int.
      unfold seconds_now. rewrite Hhour, Hmin, Hsec.
      unfold seconds_elapsed. lia.
Qed.

Lemma C4_witness :
  let w := world_at (instant 1 17 0 0) 0 in
  exists b : bool,
    result_of (TimeRange.call ([VNum 9; VNum 17] ++ zone false)) w = Some b
    /\ (b = true <-> 9 <= hour_now false (clock w) < 17)
    /\ (hour_now false (clock w) = 17 -> b = false)
    /\ (hour_now false (clock w) = 9 -> 9 < 17 -> b = true)
    /\ (seconds_now false (clock w) = seconds_elapsed 17 0 0 ->
        9 <= 17 -> in_range 9 ->
        b = false
        /\ result_of
             (TimeRange.call
                ([VNum 9; VNum 0; VNum 17; VNum 0] ++ zone false)) w
           = Some true
        /\ result_of
             (TimeRange.call
                ([VNum 9; VNum 0; VNum 0; VNum 17; VNum 0; VNum 0]
                 ++ zone false)) w
           = Some true).
Proof.
  intros w.
  apply (C4_two_arguments_half_open (VNum 9) (VNum 17) 9 17 false w);
    vm_compute; reflexivity.
Defined.

(** C5: the four-argument form [timeRange(hour1, min1, hour2, min2)]
    completes the start with second 0 and the end with second 59 and
    tests inclusively: whatever the clock reads, it returns true exactly
    when the seconds elapsed today lie between
    [hour1*3600 + min1*60 + 0] and [hour2*3600 + min2*60 + 59], for hours
    and minutes up to [10^12] in magnitude, where the code computes these
    sums without rounding. So [timeRange(8, 30, 17, 0)] is true at
    08:30:00 and at 17:00:59, false at 08:29:59 and at 17:01:00. *)
Theorem C5_four_arguments_fill_seconds :
  (forall (a1 a2 a3 a4 : value) (hour1 min1 hour2 min2 : Z) (gmt : bool)
          (w : World),
      parseInt a1 10 = Int hour1 -> parseInt a2 10 = Int min1 ->
      parseInt a3 10 = Int hour2 -> parseInt a4 10 = Int min2 ->
      in_range hour1 -> in_range min1 -> in_range hour2 -> in_range min2 ->
      exists b : bool,
        result_of (TimeRange.call ([a1; a2; a3; a4] ++ zone gmt)) w = Some b
        /\ (b = true <->
            hour1 * 3600 + min1 * 60 + 0 <= seconds_now gmt (clock w)
              <= hour2 * 3600 + min2 * 60 + 59))
  /\ (forall w : World,
        let call := TimeRange.call [VNum 8; VNum 30; VNum 17; VNum 0] in
        (seconds_now false (clock w) = seconds_elapsed 8 30 0 ->
         result_of call w = Some true)
        /\ (seconds_now false (clock w) = seconds_elapsed 17 0 59 ->
            result_of call w = Some true)
        /\ (seconds_now false (clock w) = seconds_elapsed 8 29 59 ->
            result_of call w = Some false)
        /\ (seconds_now false (clock w) = seconds_elapsed 17 1 0 ->
            result_of call w = Some false)).
Proof.
  assert (General :
    forall (a1 a2 a3 a4 : value) (hour1 min1 hour2 min2 : Z) (gmt : bool)
           (w : World),
      parseInt a1 10 = Int hour1 -> parseInt a2 10 = Int min1 ->
      parseInt a3 10 = Int hour2 -> parseInt a4 10 = Int min2 ->
      in_range hour1 -> in_range min1 -> in_range hour2 -> in_range min2 ->
      exists b : bool,
        result_of (TimeRange.call ([a1; a2; a3; a4] ++ zone gmt)) w = Some b
        /\ (b = true <->
            hour1 * 3600 + min1 * 60 + 0 <= seconds_now gmt (clock w)
              <= hour2 * 3600 + min2 * 60 + 59)).
  { intros a1 a2 a3 a4 hour1 min1 hour2 min2 gmt w H1 H2 H3 H4
      R1 R2 R3 R4.
    eexists. split; [by apply four_arguments |].
    rewrite valueInRange_Int.
    apply (whole_minute_bounds hour1 min1 hour2 min2).
    apply second_now_range. }
  split; [exact General |].
  intros w call.
  assert (R : forall z, 0 <= z <= 59 -> in_range z)
    by (unfold in_range; intros; lia).
  destruct (General (VNum 8) (VNum 30) (VNum 17) (VNum 0) 8 30 17 0 false w
              eq_refl eq_refl eq_refl eq_refl
              (R 8 ltac:(lia)) (R 30 ltac:(lia)) (R 17 ltac:(lia))
              (R 0 ltac:(lia))) as (b & Hb & Hiff).
  change (result_of call w = Some b) in Hb. rewrite Hb.
  unfold seconds_elapsed in *.
  repeat split; intros Hnow; f_equal; rewrite Hnow in Hiff.
  - apply Hiff. lia.
  - apply Hiff. lia.
  - destruct b; [| reflexivity]. exfalso. destruct Hiff as [Hiff _].
    specialize (Hiff eq_refl). lia.
  - destruct b; [| reflexivity]. exfalso. destruct Hiff as [Hiff _].
    specialize (Hiff eq_refl). lia.
Qed.

Lemma C5_witness :
  exists b : bool,
    result_of
      (TimeRange.call
         ([VStr "8"; VStr "30"; VStr "17"; VStr "00"] ++ zone true))
      (world_at (instant 1 17 0 59) 3600000) = Some b
    /\ (b = true <->
        8 * 3600 + 30 * 60 + 0
          <= seconds_now true (clock (world_at (instant 1 17 0 59) 3600000))
          <= 17 * 3600 + 0 * 60 + 59).
Proof.
  apply (proj1 C5_four_arguments_fill_seconds);
    (vm_compute; reflexivity) || (unfold in_range; lia).
Defined.

Lemma point_window (h m s h' m' s' : Z) :
  0 <= m < 60 -> 0 <= s < 60 -> 0 <= m' < 60 -> 0 <= s' < 60 ->
  seconds_elapsed h m s <= seconds_elapsed h' m' s' <= seconds_elapsed h m s
  <-> h' = h /\ m' = m /\ s' = s.
Proof. unfold seconds_elapsed. lia. Qed.

Lemma minute_window (h m h' m' : Z) :
  0 <= m < 60 -> 0 <= m' < 60 ->
  seconds_elapsed h m 0 <= seconds_elapsed h' m' 0 <= seconds_elapsed h m 59
  <-> h' = h /\ m' = m.
Proof. unfold seconds_elapsed. lia. Qed.

(** C6: exactly when the last argument is the literal [GMT], it is taken
    off the argument list before the arity is looked at and the hour,
    the minute and the second are read in UTC; otherwise they are read
    in local time and the last argument stays, as a number like the
    others. A call ending in [GMT] is the call without it made where
    local time is UTC, and its result is the same in every local zone.
    Windows of one hour, one minute and one second show each field: with
    the marker they are true exactly when the UTC hour, minute and
    second are the ones named, without it when the local ones are.
    [timeRange(12, "GMT")] compares the UTC hour with 12. The marker is
    case-sensitive: [gmt] is just a malformed number. *)
Theorem C6_marker_selects_UTC :
  (forall (args : list value) (w : World),
      last args <> Some (VStr "GMT") ->
      result_of (TimeRange.call (args ++ [VStr "GMT"])) w
      = result_of (TimeRange.call args) (in_UTC w))
  /\ (forall (args : list value) (w w' : World),
        time_value (clock w) = time_value (clock w') ->
        result_of (TimeRange.call (args ++ [VStr "GMT"])) w
        = result_of (TimeRange.call (args ++ [VStr "GMT"])) w')
  /\ (forall (args : list value) (w w' : World),
        last args <> Some (VStr "GMT") ->
        LocalTime (clock w) = LocalTime (clock w') ->
        result_of (TimeRange.call args) w
        = result_of (TimeRange.call args) w')
  /\ (forall (a1 a2 a3 : value) (h m s : Z) (w : World),
        parseInt a1 10 = Int h -> parseInt a2 10 = Int m ->
        parseInt a3 10 = Int s ->
        in_range h -> 0 <= m < 60 -> 0 <= s < 60 ->
        (result_of (TimeRange.call [a1; VStr "GMT"]) w = Some true <->
         getUTCHours (clock w) = h)
        /\ (result_of (TimeRange.call [a1]) w = Some true <->
            getHours (clock w) = h)
        /\ (result_of (TimeRange.call [a1; a2; a1; a2; VStr "GMT"]) w
            = Some true <->
            getUTCHours (clock w) = h /\ getUTCMinutes (clock w) = m)
        /\ (result_of (TimeRange.call [a1; a2; a1; a2]) w = Some true <->
            getHours (clock w) = h /\ getMinutes (clock w) = m)
        /\ (result_of
              (TimeRange.call [a1; a2; a3; a1; a2; a3; VStr "GMT"]) w
            = Some true <->
            getUTCHours (clock w) = h /\ getUTCMinutes (clock w) = m
            /\ getUTCSeconds (clock w) = s)
        /\ (result_of (TimeRange.call [a1; a2; a3; a1; a2; a3]) w
            = Some true <->
            getHours (clock w) = h /\ getMinutes (clock w) = m
            /\ getSeconds (clock w) = s))
  /\ (forall w : World,
        result_of (TimeRange.call [VNum 12; VStr "GMT"]) w
        = Some (getUTCHours (clock w) =? 12))
  /\ (forall w : World,
        result_of (TimeRange.call [VNum 12; VStr "gmt"]) w = Some false).
Proof.
  repeat apply conj.
  - intros args w Hlast.
    rewrite !call_result, timeRange_fun_marker,
      (timeRange_fun_not_marker _ _ Hlast).
    f_equal. destruct args as [|a args]; [reflexivity |].
    apply dispatch_reads; unfold hour_now, minute_now, second_now,
      getHours, getMinutes, getSeconds, LocalTime; simpl;
      by rewrite Z.add_0_r.
  - intros args w w' Ht. rewrite !call_result, !timeRange_fun_marker.
    f_equal. apply dispatch_reads; unfold hour_now, minute_now,
      second_now, getUTCHours, getUTCMinutes, getUTCSeconds; by rewrite Ht.
  - intros args w w' Hlast Ht.
    rewrite !call_result, !(timeRange_fun_not_marker _ _ Hlast).
    f_equal. apply dispatch_reads; unfold hour_now, minute_now,
      second_now, getHours, getMinutes, getSeconds; by rewrite Ht.
  - intros a1 a2 a3 h m s w H1 H2 H3 Rh Hm Hs.
    assert (Rm : in_range m) by (unfold in_range; lia).
    assert (Rs : in_range s) by (unfold in_range; lia).
    pose proof (one_argument a1 h true w H1) as U1.
    pose proof (one_argument a1 h false w H1) as L1.
    pose proof (four_arguments a1 a2 a1 a2 h m h m true w
                  H1 H2 H1 H2 Rh Rm Rh Rm) as U4.
    pose proof (four_arguments a1 a2 a1 a2 h m h m false w
                  H1 H2 H1 H2 Rh Rm Rh Rm) as L4.
    pose proof (six_arguments a1 a2 a3 a1 a2 a3 h m s h m s true w
                  H1 H2 H3 H1 H2 H3 Rh Rm Rs Rh Rm Rs) as U6.
    pose proof (six_arguments a1 a2 a3 a1 a2 a3 h m s h m s false w
                  H1 H2 H3 H1 H2 H3 Rh Rm Rs Rh Rm Rs) as L6.
    simpl zone in *. rewrite ?app_nil_r in *. simpl app in *.
    rewrite U1, L1, U4, L4, U6, L6. unfold seconds_now.
    assert (Some_true : forall (b : bool) (P : Prop),
              (b = true <-> P) -> (Some b = Some true <-> P)).
    { intros b P <-. split; [by intros [= ->] | by intros ->]. }
    split; [| split; [| split; [| split; [| split]]]]; apply Some_true.
    + apply Z.eqb_eq.
    + apply Z.eqb_eq.
    + rewrite valueInRange_Int.
      apply (minute_window h m); [lia | apply (minute_now_range true)].
    + rewrite valueInRange_Int.
      apply (minute_window h m); [lia | apply (minute_now_range false)].
    + rewrite valueInRange_Int.
      apply (point_window h m s);
        [lia | lia | apply (minute_now_range true)
        | apply (second_now_range true)].
    + rewrite valueInRange_Int.
      apply (point_window h m s);
        [lia | lia | apply (minute_now_range false)
        | apply (second_now_range false)].
  - intros w. rewrite call_result. reflexivity.
  - intros w. rewrite call_result. f_equal.
    change [VNum 12; VStr "gmt"] with ([VNum 12] ++ [VStr "gmt"]).
    rewrite timeRange_fun_other by discriminate.
    apply dispatch_NaN, list_elem_of_In. simpl. tauto.
Qed.

Lemma C6_witness :
  let w := world_at (instant 0 12 30 15) (-18000000) in
  result_of (TimeRange.call ([VNum 12] ++ [VStr "GMT"])) w
  = result_of (TimeRange.call [VNum 12]) (in_UTC w)
  /\ result_of (TimeRange.call ([VNum 12] ++ [VStr "GMT"])) w
     = result_of (TimeRange.call ([VNum 12] ++ [VStr "GMT"]))
         (world_at (instant 0 12 30 15) 32400000)
  /\ result_of (TimeRange.call [VNum 7; VNum 8]) w
     = result_of (TimeRange.call [VNum 7; VNum 8])
         (world_at (instant 0 7 30 15) 0)
  /\ (result_of
        (TimeRange.call
           [VNum 12; VNum 30; VNum 15; VNum 12; VNum 30; VNum 15;
            VStr "GMT"]) w
      = Some true <->
      getUTCHours (clock w) = 12 /\ getUTCMinutes (clock w) = 30
      /\ getUTCSeconds (clock w) = 15)
  /\ (result_of
        (TimeRange.call
           [VNum 12; VNum 30; VNum 15; VNum 12; VNum 30; VNum 15]) w
      = Some true <->
      getHours (clock w) = 12 /\ getMinutes (clock w) = 30
      /\ getSeconds (clock w) = 15).
Proof.
  intros w.
  destruct C6_marker_selects_UTC as (Hutc & Hzone & Hlocal & Hpin & _).
  destruct (Hpin (VNum 12) (VNum 30) (VNum 15) 12 30 15 w
              eq_refl eq_refl eq_refl ltac:(unfold in_range; lia)
              ltac:(lia) ltac:(lia))
    as (_ & _ & _ & _ & Hu & Hl).
  split; [| split; [| split; [| split]]].
  - apply Hutc. discriminate.
  - apply Hzone. reflexivity.
  - apply Hlocal; [discriminate | reflexivity].
  - exact Hu.
  - exact Hl.
Defined.

(** C7: a call whose argument count, once an optional trailing [GMT] is
    removed, is not 1, 2, 4 or 6 returns false, whatever the clock
    reads; it returns, so nothing is raised. *)
Theorem C7_other_arity_is_false (args : list value) (w : World) :
  length (without_marker args) <> 1%nat ->
  length (without_marker args) <> 2%nat ->
  length (without_marker args) <> 4%nat ->
  length (without_marker args) <> 6%nat ->
  result_of (TimeRange.call args) w = Some false.
Proof.
  intros N1 N2 N4 N6. rewrite call_result. f_equal.
  rewrite timeRange_fun_without_marker.
  destruct args as [|a args].
  - reflexivity.
  - apply dispatch_other_arity; by rewrite length_map.
Qed.

Lemma C7_witness :
  result_of
    (TimeRange.call [VNum 8; VNum 30; VNum 17; VStr "GMT"])
    (world_at (instant 2 9 30 0) 0) = Some false.
Proof.
  apply C7_other_arity_is_false; vm_compute; discriminate.
Defined.



(** ** [weekdayRange] runs to its functional reading *)

Lemma strict_eq_VStr_l (s : string) (v : value) :
  strict_eq (VStr s) v = true <-> v = VStr s.
Proof.
  destruct v; simpl; try (split; discriminate).
  rewrite String.eqb_eq. split; [intros -> | intros [= ->]]; reflexivity.
Qed.

(** A weekday token is found at its place, from 0 to 6; anything else
    is at [-1]. *)
Lemma indexOf_weekdays (v : value) :
  (v ∈ WeekdayRange.weekdays
   /\ 0 <= indexOf WeekdayRange.weekdays v <= 6
   /\ WeekdayRange.weekdays
        !! Z.to_nat (indexOf WeekdayRange.weekdays v) = Some v)
  \/ ((v ∉ WeekdayRange.weekdays)
      /\ indexOf WeekdayRange.weekdays v = -1).
Proof.
  unfold indexOf, WeekdayRange.weekdays. cbn [indexOf_from].
  repeat match goal with
  | |- context [strict_eq (VStr ?s) v] =>
      let E := fresh "E" in
      (destruct (strict_eq (VStr s) v) eqn:E;
       [apply strict_eq_VStr_l in E; subst v; left;
        split; [apply list_elem_of_In; simpl; tauto |];
        split; [simpl; lia | reflexivity]
       | apply not_true_iff_false in E; rewrite strict_eq_VStr_l in E])
  end.
  right. split; [| reflexivity].
  intros Hin. apply list_elem_of_In in Hin. simpl in Hin.
  intuition congruence.
Qed.

Lemma indexOf_weekdays_token (v : value) :
  v ∈ WeekdayRange.weekdays -> 0 <= indexOf WeekdayRange.weekdays v <= 6.
Proof. destruct (indexOf_weekdays v) as [(_ & H & _) | [H _]]; tauto. Qed.

Lemma indexOf_weekdays_other (v : value) :
  v ∉ WeekdayRange.weekdays -> indexOf WeekdayRange.weekdays v = -1.
Proof. destruct (indexOf_weekdays v) as [(H & _) | [_ H]]; tauto. Qed.

Lemma isGMT_spec (v : value) :
  WeekdayRange.isGMT v = true <-> v = VStr "GMT".
Proof. apply strict_eq_VStr. Qed.

Lemma isGMT_token (v : value) :
  v ∈ WeekdayRange.weekdays -> WeekdayRange.isGMT v = false.
Proof.
  intros Hin. apply not_true_iff_false. rewrite isGMT_spec. intros ->.
  apply list_elem_of_In in Hin. simpl in Hin. intuition discriminate.
Qed.

Lemma getTodaysDay_run (gmt : bool) (w : World) :
  WeekdayRange.getTodaysDay gmt w = Some (Int (day_now gmt (clock w)), w).
Proof. by destruct gmt. Qed.

Lemma weekdayRange_run (wd1 wd2 gmt : value) (w : World) :
  WeekdayRange.weekdayRange wd1 wd2 gmt w
  = Some (WeekdayRangeFun.weekdayRange wd1 wd2 gmt (clock w), w).
Proof.
  unfold WeekdayRange.weekdayRange, WeekdayRangeFun.weekdayRange,
    WeekdayRangeFun.useGMTzone, WeekdayRange.isWeekday.
  assert (Hidx2' :
    (if negb (indexOf WeekdayRange.weekdays wd2 =? -1)
     then indexOf WeekdayRange.weekdays wd2 else -1)
    = indexOf WeekdayRange.weekdays wd2).
  { destruct (Z.eqb_spec (indexOf WeekdayRange.weekdays wd2) (-1));
      simpl; congruence. }
  destruct (WeekdayRange.isGMT gmt) eqn:Hgmt;
    [| destruct (WeekdayRange.isGMT wd2) eqn:Hwd2];
    cbn [negb andb orb]; rewrite ?Hidx2';
    try (apply isGMT_spec in Hwd2; subst wd2;
         change (indexOf WeekdayRange.weekdays (VStr "GMT")) with (-1));
    unfold bind; rewrite getTodaysDay_run;
    repeat match goal with |- context [if ?b then _ else _] =>
      destruct b end; reflexivity.
Qed.

Lemma weekdayRange_result (wd1 wd2 gmt : value) (w : World) :
  result_of (WeekdayRange.weekdayRange wd1 wd2 gmt) w
  = Some (WeekdayRangeFun.weekdayRange wd1 wd2 gmt (clock w)).
Proof. unfold result_of. by rewrite weekdayRange_run. Qed.

(** ** The weekday forms *)

(** With no weekday token in second place: today against the first
    index. *)
Lemma single_weekday (wd1 wd2 gmt : value) (w : World) :
  wd2 ∉ WeekdayRange.weekdays ->
  result_of (WeekdayRange.weekdayRange wd1 wd2 gmt) w
  = Some (day_now (WeekdayRangeFun.useGMTzone wd2 gmt) (clock w)
          =? indexOf WeekdayRange.weekdays wd1).
Proof.
  intros H2. rewrite weekdayRange_result.
  unfold WeekdayRangeFun.weekdayRange.
  by rewrite (indexOf_weekdays_other _ H2).
Qed.

(** With one: the inclusive range, or the two ranges around the end of
    the week. *)
Lemma two_weekdays (wd1 wd2 gmt : value) (w : World) :
  wd2 ∈ WeekdayRange.weekdays ->
  let i1 := indexOf WeekdayRange.weekdays wd1 in
  let i2 := indexOf WeekdayRange.weekdays wd2 in
  let today := day_now (WeekdayRange.isGMT gmt) (clock w) in
  result_of (WeekdayRange.weekdayRange wd1 wd2 gmt) w
  = Some (if i1 <=? i2 then (i1 <=? today) && (today <=? i2)
          else (i1 <=? today) && (today <=? 6)
               || (0 <=? today) && (today <=? i2)).
Proof.
  intros H2 i1 i2 today. rewrite weekdayRange_result.
  unfold WeekdayRangeFun.weekdayRange, WeekdayRangeFun.useGMTzone.
  rewrite (isGMT_token _ H2), orb_false_r.
  pose proof (indexOf_weekdays_token _ H2) as Hi2.
  fold i1 i2 today.
  destruct (Z.ltb_spec i2 0); [lia | reflexivity].
Qed.

(** An unrecognized first argument before a weekday token: [-1] is the
    lower bound of the range, below every day. *)
Lemma unrecognized_first_of_two (wd1 wd2 gmt : value) (w : World) :
  wd1 ∉ WeekdayRange.weekdays -> wd2 ∈ WeekdayRange.weekdays ->
  result_of (WeekdayRange.weekdayRange wd1 wd2 gmt) w
  = Some (day_now (WeekdayRange.isGMT gmt) (clock w)
          <=? indexOf WeekdayRange.weekdays wd2).
Proof.
  intros H1 H2. rewrite (two_weekdays _ _ _ _ H2).
  rewrite (indexOf_weekdays_other _ H1).
  pose proof (indexOf_weekdays_token _ H2) as Hi2.
  pose proof (day_now_range (WeekdayRange.isGMT gmt) (clock w)) as Hd.
  destruct (Z.leb_spec (-1) (indexOf WeekdayRange.weekdays wd2)); [| lia].
  destruct (Z.leb_spec (-1) (day_now (WeekdayRange.isGMT gmt) (clock w)));
    [reflexivity | lia].
Qed.

(** ** What [weekdayRange] returns *)

(** C2, as the code has it: when the first argument is not a weekday
    token, [indexOf] puts it at [-1]; when the second argument is no
    weekday token either (left out, the marker, or unrecognized), the
    call compares today's index with [-1] and returns false, whatever
    the clock reads and whatever the third argument. *)
Theorem C2_unrecognized_first_weekday (wd1 wd2 gmt : value) (w : World) :
  wd1 ∉ WeekdayRange.weekdays ->
  wd2 ∉ WeekdayRange.weekdays ->
  indexOf WeekdayRange.weekdays wd1 = -1
  /\ result_of (WeekdayRange.weekdayRange wd1 wd2 gmt) w = Some false.
Proof.
  intros H1 H2. split; [by apply indexOf_weekdays_other |].
  rewrite (single_weekday _ _ _ _ H2), (indexOf_weekdays_other _ H1).
  f_equal. apply Z.eqb_neq.
  pose proof (day_now_range (WeekdayRangeFun.useGMTzone wd2 gmt) (clock w)).
  lia.
Qed.

Lemma C2_witness :
  indexOf WeekdayRange.weekdays (VStr "XYZ") = -1
  /\ result_of
       (WeekdayRange.weekdayRange (VStr "XYZ") (VStr "GMT") VUndefined)
       (world_at (instant 4 0 0 0) 0) = Some false.
Proof.
  apply C2_unrecognized_first_weekday;
    intros H; apply list_elem_of_In in H; simpl in H;
    intuition discriminate.
Defined.

(** [weekdayRange("XYZ", "SAT")] on a Thursday: the first argument is
    not a weekday token, and the result is true. *)
Lemma C2_counterexample :
  (VStr "XYZ" ∉ WeekdayRange.weekdays)
  /\ getDay (clock (world_at (instant 4 0 0 0) 0)) = 4
  /\ result_of
       (WeekdayRange.weekdayRange (VStr "XYZ") (VStr "SAT") VUndefined)
       (world_at (instant 4 0 0 0) 0) = Some true
  /\ result_of
       (WeekdayRange.weekdayRange (VStr "XYZ") (VStr "SAT") VUndefined)
       (world_at (instant 4 0 0 0) 0) <> Some false.
Proof.
  split; [| split; [| split]].
  - intros H. apply list_elem_of_In in H. simpl in H.
    intuition discriminate.
  - reflexivity.
  - reflexivity.
  - vm_compute. discriminate.
Qed.

(** C3: in the two-weekday form with tokens [wd1] after [wd2] in the
    week, the result is true exactly when today's index is from
    [index(wd1)] to 6 or from 0 to [index(wd2)]. So
    [weekdayRange("FRI", "MON")] holds on days 5, 6, 0 and 1 and not on
    days 2, 3 and 4, and it is not [weekdayRange("MON", "FRI")]. *)
Theorem C3_weekday_window_wraps :
  (forall (wd1 wd2 gmt : value) (w : World),
      wd1 ∈ WeekdayRange.weekdays -> wd2 ∈ WeekdayRange.weekdays ->
      indexOf WeekdayRange.weekdays wd1 > indexOf WeekdayRange.weekdays wd2 ->
      let today := day_now (WeekdayRange.isGMT gmt) (clock w) in
      0 <= today <= 6
      /\ exists b : bool,
          result_of (WeekdayRange.weekdayRange wd1 wd2 gmt) w = Some b
          /\ (b = true <->
              indexOf WeekdayRange.weekdays wd1 <= today <= 6
              \/ 0 <= today <= indexOf WeekdayRange.weekdays wd2))
  /\ (forall (gmt : value) (w : World),
        let today := day_now (WeekdayRange.isGMT gmt) (clock w) in
        let call := WeekdayRange.weekdayRange (VStr "FRI") (VStr "MON") gmt in
        (result_of call w = Some true <->
         today = 5 \/ today = 6 \/ today = 0 \/ today = 1)
        /\ (result_of call w = Some false <->
            today = 2 \/ today = 3 \/ today = 4))
  /\ (exists w : World,
        result_of
          (WeekdayRange.weekdayRange (VStr "MON") (VStr "FRI") VUndefined) w
        <> result_of
             (WeekdayRange.weekdayRange (VStr "FRI") (VStr "MON") VUndefined)
             w).
Proof.
  split; [| split].
  - intros wd1 wd2 gmt w H1 H2 Hgt today.
    pose proof (day_now_range (WeekdayRange.isGMT gmt) (clock w)) as Hd.
    fold today in Hd. split; [lia |].
    eexists. split; [by apply two_weekdays |]. fold today.
    destruct (Z.leb_spec (indexOf WeekdayRange.weekdays wd1)
                (indexOf WeekdayRange.weekdays wd2)); [lia |].
    rewrite orb_true_iff, !andb_true_iff, !Z.leb_le. reflexivity.
  - intros gmt w today call.
    pose proof (day_now_range (WeekdayRange.isGMT gmt) (clock w)) as Hd.
    fold today in Hd. unfold call.
    rewrite two_weekdays by (apply list_elem_of_In; simpl; tauto).
    fold today.
    change (indexOf WeekdayRange.weekdays (VStr "FRI")) with 5.
    change (indexOf WeekdayRange.weekdays (VStr "MON")) with 1.
    cbn [Z.leb Z.compare Pos.compare Pos.compare_cont].
    destruct (Z.leb_spec 5 today), (Z.leb_spec today 6),
      (Z.leb_spec 0 today), (Z.leb_spec today 1);
      cbn [andb orb]; split; split; intros; try discriminate;
      try reflexivity; lia.
  - exists (world_at (instant 4 0 0 0) 0). vm_compute. discriminate.
Qed.

Lemma C3_witness :
  let today := day_now (WeekdayRange.isGMT (VStr "GMT"))
                 (clock (world_at (instant 0 0 0 0) 0)) in
  0 <= today <= 6
  /\ exists b : bool,
      result_of
        (WeekdayRange.weekdayRange (VStr "SAT") (VStr "TUE") (VStr "GMT"))
        (world_at (instant 0 0 0 0) 0) = Some b
      /\ (b = true <->
          indexOf WeekdayRange.weekdays (VStr "SAT") <= today <= 6
          \/ 0 <= today <= indexOf WeekdayRange.weekdays (VStr "TUE")).
Proof.
  apply (proj1 C3_weekday_window_wraps (VStr "SAT") (VStr "TUE")
           (VStr "GMT") (world_at (instant 0 0 0 0) 0)).
  - apply list_elem_of_In. simpl. tauto.
  - apply list_elem_of_In. simpl. tauto.
  - reflexivity.
Defined.

(** C10, as the code has it: a second argument that is neither a weekday
    token nor the marker is ignored, and the call is the single-weekday
    form in the zone the third argument selects: the result is true
    exactly when today's index, in UTC when the third argument is [GMT]
    and in local time otherwise, is [index(wd1)]. *)
Theorem C10_invalid_second_weekday_ignored (wd1 wd2 gmt : value)
    (w : World) :
  wd2 ∉ WeekdayRange.weekdays -> wd2 <> VStr "GMT" ->
  exists b : bool,
    result_of (WeekdayRange.weekdayRange wd1 wd2 gmt) w = Some b
    /\ result_of (WeekdayRange.weekdayRange wd1 VUndefined gmt) w = Some b
    /\ (gmt = VStr "GMT" ->
        (b = true <->
         getUTCDay (clock w) = indexOf WeekdayRange.weekdays wd1))
    /\ (gmt <> VStr "GMT" ->
        (b = true <->
         getDay (clock w) = indexOf WeekdayRange.weekdays wd1)).
Proof.
  intros H2 Hne.
  assert (Hzone : forall v, v <> VStr "GMT" ->
            WeekdayRangeFun.useGMTzone v gmt = WeekdayRange.isGMT gmt).
  { intros v Hv. unfold WeekdayRangeFun.useGMTzone.
    replace (WeekdayRange.isGMT v) with false; [apply orb_false_r |].
    symmetry. apply not_true_iff_false. by rewrite isGMT_spec. }
  eexists. split; [by apply single_weekday |].
  rewrite single_weekday
    by (intros H; apply list_elem_of_In in H; simpl in H;
        intuition discriminate).
  rewrite !Hzone by (assumption || discriminate).
  split; [reflexivity |]. rewrite Z.eqb_eq. split.
  - intros ->. reflexivity.
  - intros Hgmt.
    replace (WeekdayRange.isGMT gmt) with false; [reflexivity |].
    symmetry. apply not_true_iff_false. by rewrite isGMT_spec.
Qed.

Lemma C10_witness :
  exists b : bool,
    result_of
      (WeekdayRange.weekdayRange (VStr "MON") (VStr "XYZ") VUndefined)
      (world_at (instant 1 0 30 0) (-3600000)) = Some b
    /\ result_of
         (WeekdayRange.weekdayRange (VStr "MON") VUndefined VUndefined)
         (world_at (instant 1 0 30 0) (-3600000)) = Some b
    /\ (VUndefined = VStr "GMT" ->
        (b = true <->
         getUTCDay (clock (world_at (instant 1 0 30 0) (-3600000)))
         = indexOf WeekdayRange.weekdays (VStr "MON")))
    /\ (VUndefined <> VStr "GMT" ->
        (b = true <->
         getDay (clock (world_at (instant 1 0 30 0) (-3600000)))
         = indexOf WeekdayRange.weekdays (VStr "MON"))).
Proof.
  apply C10_invalid_second_weekday_ignored.
  - intros H. apply list_elem_of_In in H. simpl in H.
    intuition discriminate.
  - discriminate.
Defined.

(** [weekdayRange("MON", "XYZ", "GMT")] half an hour into a Monday in
    UTC, where local time is an hour behind: it is still Sunday there,
    and the result is true. *)
Lemma C10_counterexample :
  let w := world_at (instant 1 0 30 0) (-3600000) in
  let call :=
    WeekdayRange.weekdayRange (VStr "MON") (VStr "XYZ") (VStr "GMT") in
  (VStr "XYZ" ∉ WeekdayRange.weekdays)
  /\ VStr "XYZ" <> VStr "GMT"
  /\ getDay (clock w) = 0
  /\ getUTCDay (clock w) = 1
  /\ indexOf WeekdayRange.weekdays (VStr "MON") = 1
  /\ result_of call w = Some true
  /\ ~ (result_of call w = Some true <->
        getDay (clock w) = indexOf WeekdayRange.weekdays (VStr "MON")).
Proof.
  cbv zeta. repeat apply conj; try reflexivity; try discriminate.
  - intros H. apply list_elem_of_In in H. simpl in H.
    intuition discriminate.
  - intros [H _]. specialize (H eq_refl). vm_compute in H. discriminate H.
Qed.

(** ** Determinism and the frame *)

Lemma timeRange_frame (arguments : loc) (args : list value) (w : World) :
  heap w !! arguments = Some args ->
  exists w' : World,
    TimeRange.timeRange arguments w
    = Some (TimeRangeFun.timeRange args (clock w), w')
    /\ clock w' = clock w
    /\ forall (l : loc) (a : list value),
         heap w !! l = Some a -> heap w' !! l = Some a.
Proof.
  intros Hargs. eexists. split; [by apply timeRange_run |].
  split; [reflexivity |].
  intros l a Hl. simpl. rewrite lookup_insert_ne; [assumption |].
  intros E. pose proof (is_fresh (dom (heap w))) as Hf.
  rewrite E in Hf. apply Hf, elem_of_dom. eauto.
Qed.

(** C9: both functions are functions of their arguments and of the one
    clock reading. A call of [timeRange] returns a result that any world
    with the same clock gives too, whatever arrays it holds; it leaves
    the clock and every array that existed as they were, the [arguments]
    object included, its own copy being a new array; and calling twice
    in a row gives the same result twice. A call of [weekdayRange]
    leaves the world exactly as it found it. *)
Theorem C9_deterministic_and_stateless :
  (forall (args : list value) (w : World),
      exists (b : bool) (w' : World),
        TimeRange.call args w = Some (b, w')
        /\ clock w' = clock w
        /\ (forall (l : loc) (a : list value),
              heap w !! l = Some a -> heap w' !! l = Some a)
        /\ (forall v : World,
              clock v = clock w ->
              result_of (TimeRange.call args) v = Some b)
        /\ result_of
             (b1 <- TimeRange.call args ;;
              b2 <- TimeRange.call args ;;
              ret (b1, b2)) w
           = Some (b, b))
  /\ (forall (arguments : loc) (args : list value) (w : World),
        heap w !! arguments = Some args ->
        exists (b : bool) (w' : World),
          TimeRange.timeRange arguments w = Some (b, w')
          /\ result_of (TimeRange.call args) w = Some b
          /\ heap w' !! arguments = Some args)
  /\ (forall (wd1 wd2 gmt : value) (w : World),
        exists b : bool,
          WeekdayRange.weekdayRange wd1 wd2 gmt w = Some (b, w)
          /\ (forall v : World,
                clock v = clock w ->
                result_of (WeekdayRange.weekdayRange wd1 wd2 gmt) v
                = Some b)
          /\ result_of
               (b1 <- WeekdayRange.weekdayRange wd1 wd2 gmt ;;
                b2 <- WeekdayRange.weekdayRange wd1 wd2 gmt ;;
                ret (b1, b2)) w
             = Some (b, b)).
Proof.
  split; [| split].
  - intros args w.
    destruct (call_run args w) as (w' & Hrun & Hclock & Hframe).
    exists (TimeRangeFun.timeRange args (clock w)), w'.
    split; [exact Hrun |]. split; [exact Hclock |].
    split; [exact Hframe |]. split.
    + intros v Hv. by rewrite call_result, Hv.
    + destruct (call_run args w') as (w'' & Hrun' & _).
      unfold result_of, bind. rewrite Hrun, Hrun', Hclock. reflexivity.
  - intros arguments args w Hargs.
    destruct (timeRange_frame _ _ _ Hargs) as (w' & Hrun & _ & Hframe).
    exists (TimeRangeFun.timeRange args (clock w)), w'.
    split; [exact Hrun |]. split; [apply call_result |].
    by apply Hframe.
  - intros wd1 wd2 gmt w.
    exists (WeekdayRangeFun.weekdayRange wd1 wd2 gmt (clock w)).
    split; [apply weekdayRange_run |]. split.
    + intros v Hv. by rewrite weekdayRange_result, Hv.
    + unfold result_of, bind. by rewrite !weekdayRange_run.
Qed.

Lemma C9_witness :
  exists (b : bool) (w' : World),
    TimeRange.timeRange 1%positive
      {| clock := {| time_value := instant 4 12 0 0; LocalTZA := 7200000 |};
         heap := {[1%positive := [VNum 12; VStr "GMT"]]} |}
    = Some (b, w')
    /\ result_of (TimeRange.call [VNum 12; VStr "GMT"])
         {| clock := {| time_value := instant 4 12 0 0; LocalTZA := 7200000 |};
            heap := {[1%positive := [VNum 12; VStr "GMT"]]} |}
       = Some b
    /\ heap w' !! 1%positive = Some [VNum 12; VStr "GMT"].
Proof.
  apply (proj1 (proj2 C9_deterministic_and_stateless)).
  reflexivity.
Defined.

(** * Further properties of [timeRange] *)

Lemma seconds_now_range (gmt : bool) (d : Date) :
  0 <= seconds_now gmt d <= 86399.
Proof.
  pose proof (hour_now_range gmt d). pose proof (minute_now_range gmt d).
  pose proof (second_now_range gmt d).
  unfold seconds_now, seconds_elapsed. lia.
Qed.

(** X1: the one-argument form [timeRange(hour)] is true exactly during
    the hour of the selected zone that its argument parses to, whatever
    the minute and the second; a parsed hour below 0 or above 23 never
    matches. *)
Theorem X1_one_argument_is_the_current_hour (a : value) (hour : Z)
    (gmt : bool) (w : World) :
  parseInt a 10 = Int hour ->
  exists b : bool,
    result_of (TimeRange.call ([a] ++ zone gmt)) w = Some b
    /\ (b = true <-> hour_now gmt (clock w) = hour)
    /\ (hour < 0 \/ 23 < hour -> b = false).
Proof.
  intros H. eexists. split; [by apply one_argument |].
  split; [apply Z.eqb_eq |].
  intros Hout. apply Z.eqb_neq.
  pose proof (hour_now_range gmt (clock w)). lia.
Qed.

Lemma X1_witness :
  exists b : bool,
    result_of (TimeRange.call ([VStr "12"] ++ zone true))
      (world_at (instant 2 12 45 10) 3600000) = Some b
    /\ (b = true <->
        hour_now true (clock (world_at (instant 2 12 45 10) 3600000)) = 12)
    /\ (12 < 0 \/ 23 < 12 -> b = false).
Proof.
  apply X1_one_argument_is_the_current_hour. reflexivity.
Defined.

(** X2: [timeRange(hour)] and [timeRange(hour, hour + 1)] are the same
    test (the header's [timerange(12, 13)], "same as above"). *)
Theorem X2_one_hour_is_a_two_hour_window (a1 a2 : value) (hour : Z)
    (gmt : bool) (w : World) :
  parseInt a1 10 = Int hour -> parseInt a2 10 = Int (hour + 1) ->
  result_of (TimeRange.call ([a1] ++ zone gmt)) w
  = result_of (TimeRange.call ([a1; a2] ++ zone gmt)) w.
Proof.
  intros H1 H2.
  rewrite (one_argument _ _ _ _ H1), (two_arguments _ _ _ _ _ _ H1 H2).
  f_equal.
  destruct (Z.eqb_spec (hour_now gmt (clock w)) hour),
    (Z.leb_spec hour (hour_now gmt (clock w))),
    (Z.ltb_spec (hour_now gmt (clock w)) (hour + 1));
    simpl; (reflexivity || lia).
Qed.

Lemma X2_witness :
  result_of (TimeRange.call ([VNum 12] ++ zone false))
    (world_at (instant 3 12 59 59) 0)
  = result_of (TimeRange.call ([VNum 12; VNum 13] ++ zone false))
      (world_at (instant 3 12 59 59) 0).
Proof.
  apply (X2_one_hour_is_a_two_hour_window (VNum 12) (VNum 13) 12);
    reflexivity.
Defined.

(** X3: the two-argument form has no wraparound and no validation of
    its hours. With [hour2 <= hour1] (as in [timeRange(22, 6)]) it is
    false at every clock reading; with [hour1 <= 0] and [24 <= hour2] it
    is true at every clock reading. *)
Theorem X3_two_arguments_empty_and_full (a1 a2 : value) (hour1 hour2 : Z)
    (gmt : bool) (w : World) :
  parseInt a1 10 = Int hour1 -> parseInt a2 10 = Int hour2 ->
  (hour2 <= hour1 ->
   result_of (TimeRange.call ([a1; a2] ++ zone gmt)) w = Some false)
  /\ (hour1 <= 0 -> 24 <= hour2 ->
      result_of (TimeRange.call ([a1; a2] ++ zone gmt)) w = Some true).
Proof.
  intros H1 H2. rewrite (two_arguments _ _ _ _ _ _ H1 H2).
  pose proof (hour_now_range gmt (clock w)) as Hh.
  split.
  - intros Hle. f_equal. apply not_true_is_false.
    rewrite andb_true_iff, Z.leb_le, Z.ltb_lt. lia.
  - intros Hlo Hhi. f_equal.
    rewrite andb_true_iff, Z.leb_le, Z.ltb_lt. lia.
Qed.

Lemma X3_witness :
  (6 <= 22 ->
   result_of (TimeRange.call ([VNum 22; VNum 6] ++ zone false))
     (world_at (instant 6 23 0 0) 0) = Some false)
  /\ (-1 <= 0 -> 24 <= 99 ->
      result_of (TimeRange.call ([VStr "-1"; VStr "99"] ++ zone true))
        (world_at (instant 6 23 0 0) 0) = Some true).
Proof.
  split.
  - apply (X3_two_arguments_empty_and_full (VNum 22) (VNum 6) 22 6);
      reflexivity.
  - apply (X3_two_arguments_empty_and_full (VStr "-1") (VStr "99") (-1) 99);
      reflexivity.
Defined.

(** X4: the four-argument form is the six-argument form with second 0
    for the start and second 59 for the end:
    [timeRange(h1, m1, h2, m2)] and [timeRange(h1, m1, 0, h2, m2, 59)]
    agree at every clock reading, although the first one leaves the
    current second out of the comparison. Hours and minutes are up to
    [10^12] in magnitude, where the bounds are computed without
    rounding. *)
Theorem X4_four_arguments_as_six (a1 a2 a3 a4 : value)
    (hour1 min1 hour2 min2 : Z) (gmt : bool) (w : World) :
  parseInt a1 10 = Int hour1 -> parseInt a2 10 = Int min1 ->
  parseInt a3 10 = Int hour2 -> parseInt a4 10 = Int min2 ->
  in_range hour1 -> in_range min1 -> in_range hour2 -> in_range min2 ->
  result_of (TimeRange.call ([a1; a2; a3; a4] ++ zone gmt)) w
  = result_of
      (TimeRange.call ([a1; a2; VNum 0; a3; a4; VNum 59] ++ zone gmt)) w.
Proof.
  intros H1 H2 H3 H4 R1 R2 R3 R4.
  rewrite (four_arguments _ _ _ _ _ _ _ _ _ _ H1 H2 H3 H4 R1 R2 R3 R4).
  rewrite (six_arguments a1 a2 (VNum 0) a3 a4 (VNum 59)
             hour1 min1 0 hour2 min2 59)
    by (assumption || reflexivity || apply in_range_0 || apply in_range_59).
  f_equal. apply eq_true_iff_eq. rewrite !valueInRange_Int.
  apply whole_minute_bounds, second_now_range.
Qed.

Lemma X4_witness :
  result_of
    (TimeRange.call ([VNum 8; VNum 30; VNum 17; VNum 0] ++ zone false))
    (world_at (instant 1 17 0 42) 0)
  = result_of
      (TimeRange.call
         ([VNum 8; VNum 30; VNum 0; VNum 17; VNum 0; VNum 59]
          ++ zone false))
      (world_at (instant 1 17 0 42) 0).
Proof.
  apply (X4_four_arguments_as_six (VNum 8) (VNum 30) (VNum 17) (VNum 0)
           8 30 17 0);
    reflexivity || (unfold in_range; lia).
Defined.

(** X5: the seconds elapsed today are between 0 and 86399 at every
    clock reading, so a six-argument window that starts at or before
    00:00:00 and ends at or after 23:59:59 is true at every clock
    reading (arguments up to [10^12] in magnitude). *)
Theorem X5_six_arguments_whole_day (a1 a2 a3 a4 a5 a6 : value)
    (hour1 min1 sec1 hour2 min2 sec2 : Z) (gmt : bool) (w : World) :
  parseInt a1 10 = Int hour1 -> parseInt a2 10 = Int min1 ->
  parseInt a3 10 = Int sec1 -> parseInt a4 10 = Int hour2 ->
  parseInt a5 10 = Int min2 -> parseInt a6 10 = Int sec2 ->
  in_range hour1 -> in_range min1 -> in_range sec1 ->
  in_range hour2 -> in_range min2 -> in_range sec2 ->
  seconds_elapsed hour1 min1 sec1 <= 0 ->
  86399 <= seconds_elapsed hour2 min2 sec2 ->
  0 <= seconds_now gmt (clock w) <= 86399
  /\ result_of (TimeRange.call ([a1; a2; a3; a4; a5; a6] ++ zone gmt)) w
     = Some true.
Proof.
  intros H1 H2 H3 H4 H5 H6 R1 R2 R3 R4 R5 R6 Hlo Hhi.
  pose proof (seconds_now_range gmt (clock w)) as Hnow.
  split; [exact Hnow |].
  rewrite (six_arguments _ _ _ _ _ _ _ _ _ _ _ _ _ _ H1 H2 H3 H4 H5 H6
             R1 R2 R3 R4 R5 R6).
  f_equal. apply valueInRange_Int. lia.
Qed.

Lemma X5_witness :
  0 <= seconds_now true (clock (world_at (instant 0 23 59 59) 3600000))
    <= 86399
  /\ result_of
       (TimeRange.call
          ([VNum 0; VNum 0; VNum 0; VNum 23; VNum 59; VNum 59] ++ zone true))
       (world_at (instant 0 23 59 59) 3600000)
     = Some true.
Proof.
  apply (X5_six_arguments_whole_day
           (VNum 0) (VNum 0) (VNum 0) (VNum 23) (VNum 59) (VNum 59)
           0 0 0 23 59 59);
    reflexivity || (unfold in_range, seconds_elapsed; lia).
Defined.

(** X6: hours, minutes and seconds are not validated or normalised one
    by one: a bound only counts through [hh*3600 + mm*60 + ss]. Two
    six-argument calls whose starts, and whose ends, are the same number
    of seconds (as [8, 90, 0] and [9, 30, 0]) agree at every clock
    reading (arguments up to [10^12] in magnitude, where the sums are
    computed without rounding). *)
Theorem X6_bounds_count_in_seconds (a1 a2 a3 a4 a5 a6 : value)
    (b1 b2 b3 b4 b5 b6 : value) (h1 m1 s1 h2 m2 s2 : Z)
    (h1' m1' s1' h2' m2' s2' : Z) (gmt : bool) (w : World) :
  parseInt a1 10 = Int h1 -> parseInt a2 10 = Int m1 ->
  parseInt a3 10 = Int s1 -> parseInt a4 10 = Int h2 ->
  parseInt a5 10 = Int m2 -> parseInt a6 10 = Int s2 ->
  parseInt b1 10 = Int h1' -> parseInt b2 10 = Int m1' ->
  parseInt b3 10 = Int s1' -> parseInt b4 10 = Int h2' ->
  parseInt b5 10 = Int m2' -> parseInt b6 10 = Int s2' ->
  in_range h1 -> in_range m1 -> in_range s1 ->
  in_range h2 -> in_range m2 -> in_range s2 ->
  in_range h1' -> in_range m1' -> in_range s1' ->
  in_range h2' -> in_range m2' -> in_range s2' ->
  seconds_elapsed h1 m1 s1 = seconds_elapsed h1' m1' s1' ->
  seconds_elapsed h2 m2 s2 = seconds_elapsed h2' m2' s2' ->
  result_of (TimeRange.call ([a1; a2; a3; a4; a5; a6] ++ zone gmt)) w
  = result_of (TimeRange.call ([b1; b2; b3; b4; b5; b6] ++ zone gmt)) w.
Proof.
  intros A1 A2 A3 A4 A5 A6 B1 B2 B3 B4 B5 B6
    RA1 RA2 RA3 RA4 RA5 RA6 RB1 RB2 RB3 RB4 RB5 RB6 Hstart Hend.
  rewrite (six_arguments _ _ _ _ _ _ _ _ _ _ _ _ _ _ A1 A2 A3 A4 A5 A6
             RA1 RA2 RA3 RA4 RA5 RA6).
  rewrite (six_arguments _ _ _ _ _ _ _ _ _ _ _ _ _ _ B1 B2 B3 B4 B5 B6
             RB1 RB2 RB3 RB4 RB5 RB6).
  by rewrite Hstart, Hend.
Qed.

Lemma X6_witness :
  result_of
    (TimeRange.call
       ([VNum 8; VNum 90; VNum 0; VNum 16; VNum 59; VNum 60]
        ++ zone false))
    (world_at (instant 1 9 30 0) 0)
  = result_of
      (TimeRange.call
         ([VNum 9; VNum 30; VNum 0; VNum 17; VNum 0; VNum 0]
          ++ zone false))
      (world_at (instant 1 9 30 0) 0).
Proof.
  apply (X6_bounds_count_in_seconds
           (VNum 8) (VNum 90) (VNum 0) (VNum 16) (VNum 59) (VNum 60)
           (VNum 9) (VNum 30) (VNum 0) (VNum 17) (VNum 0) (VNum 0)
           8 90 0 16 59 60 9 30 0 17 0 0);
    reflexivity || (unfold in_range; lia).
Defined.

Lemma map_parseInt_Forall2 (args args' : list value) :
  Forall2 (fun a a' => parseInt a 10 = parseInt a' 10) args args' ->
  map (fun n => parseInt n 10) args = map (fun n => parseInt n 10) args'.
Proof.
  induction 1 as [|a a' args args' Ha _ IH]; [reflexivity |].
  simpl. by rewrite Ha, IH.
Qed.

(** X7: the arguments only count through [parseInt(n, 10)]. Two calls
    of the same arity whose arguments parse to the same numbers one by
    one (strings or number literals, with leading white space, a sign,
    leading zeros or trailing text) agree at every clock reading, with
    the marker after both or after neither. *)
Theorem X7_arguments_count_as_parsed (args args' : list value) (gmt : bool)
    (w : World) :
  Forall2 (fun a a' => parseInt a 10 = parseInt a' 10) args args' ->
  last args <> Some (VStr "GMT") -> last args' <> Some (VStr "GMT") ->
  result_of (TimeRange.call (args ++ zone gmt)) w
  = result_of (TimeRange.call (args' ++ zone gmt)) w.
Proof.
  intros Hparse Hlast Hlast'. rewrite !call_result. f_equal.
  pose proof (map_parseInt_Forall2 _ _ Hparse) as Hmap.
  destruct gmt; simpl zone.
  - by rewrite !timeRange_fun_marker, Hmap.
  - rewrite !app_nil_r.
    rewrite (timeRange_fun_not_marker _ _ Hlast),
      (timeRange_fun_not_marker _ _ Hlast').
    destruct Hparse; [reflexivity |]. by rewrite Hmap.
Qed.

Lemma X7_witness :
  result_of
    (TimeRange.call
       ([VStr "08"; VStr " 30"; VStr "+17h"; VStr "0.5"] ++ zone true))
    (world_at (instant 1 9 30 0) 0)
  = result_of
      (TimeRange.call ([VNum 8; VNum 30; VNum 17; VNum 0] ++ zone true))
      (world_at (instant 1 9 30 0) 0).
Proof.
  apply X7_arguments_count_as_parsed.
  - repeat constructor.
  - discriminate.
  - discriminate.
Defined.

(** X8: widening a window never turns a true result into a false one.
    A six-argument window that contains another one is true whenever the
    inner one is (arguments up to [10^12] in magnitude), and so is a
    two-argument window (any hours). *)
Theorem X8_wider_window_is_true_more_often :
  (forall (a1 a2 a3 a4 a5 a6 b1 b2 b3 b4 b5 b6 : value)
          (h1 m1 s1 h2 m2 s2 h1' m1' s1' h2' m2' s2' : Z) (gmt : bool)
          (w : World),
      parseInt a1 10 = Int h1 -> parseInt a2 10 = Int m1 ->
      parseInt a3 10 = Int s1 -> parseInt a4 10 = Int h2 ->
      parseInt a5 10 = Int m2 -> parseInt a6 10 = Int s2 ->
      parseInt b1 10 = Int h1' -> parseInt b2 10 = Int m1' ->
      parseInt b3 10 = Int s1' -> parseInt b4 10 = Int h2' ->
      parseInt b5 10 = Int m2' -> parseInt b6 10 = Int s2' ->
      in_range h1 -> in_range m1 -> in_range s1 ->
      in_range h2 -> in_range m2 -> in_range s2 ->
      in_range h1' -> in_range m1' -> in_range s1' ->
      in_range h2' -> in_range m2' -> in_range s2' ->
      seconds_elapsed h1' m1' s1' <= seconds_elapsed h1 m1 s1 ->
      seconds_elapsed h2 m2 s2 <= seconds_elapsed h2' m2' s2' ->
      result_of (TimeRange.call ([a1; a2; a3; a4; a5; a6] ++ zone gmt)) w
      = Some true ->
      result_of (TimeRange.call ([b1; b2; b3; b4; b5; b6] ++ zone gmt)) w
      = Some true)
  /\ (forall (a1 a2 b1 b2 : value) (h1 h2 h1' h2' : Z) (gmt : bool)
             (w : World),
        parseInt a1 10 = Int h1 -> parseInt a2 10 = Int h2 ->
        parseInt b1 10 = Int h1' -> parseInt b2 10 = Int h2' ->
        h1' <= h1 -> h2 <= h2' ->
        result_of (TimeRange.call ([a1; a2] ++ zone gmt)) w = Some true ->
        result_of (TimeRange.call ([b1; b2] ++ zone gmt)) w = Some true).
Proof.
  split.
  - intros a1 a2 a3 a4 a5 a6 b1 b2 b3 b4 b5 b6
      h1 m1 s1 h2 m2 s2 h1' m1' s1' h2' m2' s2' gmt w
      A1 A2 A3 A4 A5 A6 B1 B2 B3 B4 B5 B6
      RA1 RA2 RA3 RA4 RA5 RA6 RB1 RB2 RB3 RB4 RB5 RB6 Hstart Hend.
    rewrite (six_arguments _ _ _ _ _ _ _ _ _ _ _ _ _ _ A1 A2 A3 A4 A5 A6
               RA1 RA2 RA3 RA4 RA5 RA6).
    rewrite (six_arguments _ _ _ _ _ _ _ _ _ _ _ _ _ _ B1 B2 B3 B4 B5 B6
               RB1 RB2 RB3 RB4 RB5 RB6).
    intros [= Hin]. f_equal. apply valueInRange_Int in Hin.
    apply valueInRange_Int. lia.
  - intros a1 a2 b1 b2 h1 h2 h1' h2' gmt w A1 A2 B1 B2 Hstart Hend.
    rewrite (two_arguments _ _ _ _ _ _ A1 A2),
      (two_arguments _ _ _ _ _ _ B1 B2).
    intros [= Hin]. f_equal.
    rewrite andb_true_iff, Z.leb_le, Z.ltb_lt in Hin.
    rewrite andb_true_iff, Z.leb_le, Z.ltb_lt. lia.
Qed.

Lemma X8_witness :
  result_of (TimeRange.call ([VNum 7; VNum 19] ++ zone false))
    (world_at (instant 1 9 30 0) 0) = Some true
  /\ result_of
       (TimeRange.call
          ([VNum 8; VNum 0; VNum 0; VNum 18; VNum 0; VNum 0] ++ zone false))
       (world_at (instant 1 9 30 0) 0) = Some true.
Proof.
  split.
  - apply (proj2 X8_wider_window_is_true_more_often
             (VNum 9) (VNum 17) (VNum 7) (VNum 19) 9 17 7 19);
      reflexivity || lia.
  - apply (proj1 X8_wider_window_is_true_more_often
             (VNum 9) (VNum 0) (VNum 0) (VNum 17) (VNum 0) (VNum 0)
             (VNum 8) (VNum 0) (VNum 0) (VNum 18) (VNum 0) (VNum 0)
             9 0 0 17 0 0 8 0 0 18 0 0);
      reflexivity || (unfold in_range, seconds_elapsed; lia).
Defined.

Lemma HourFromTime_next_day (t k : Z) :
  HourFromTime (t + k * msPerDay) = HourFromTime t.
Proof.
  unfold HourFromTime, msPerDay, msPerHour.
  replace (t + k * 86400000) with (t + (k * 24) * 3600000) by lia.
  rewrite Z.div_add by lia. apply Z.mod_add. lia.
Qed.

Lemma MinFromTime_next_day (t k : Z) :
  MinFromTime (t + k * msPerDay) = MinFromTime t.
Proof.
  unfold MinFromTime, msPerDay, msPerMinute.
  replace (t + k * 86400000) with (t + (k * 1440) * 60000) by lia.
  rewrite Z.div_add by lia.
  replace (t / 60000 + k * 1440) with (t / 60000 + (k * 24) * 60) by lia.
  apply Z.mod_add. lia.
Qed.

Lemma SecFromTime_next_day (t k : Z) :
  SecFromTime (t + k * msPerDay) = SecFromTime t.
Proof.
  unfold SecFromTime, msPerDay, msPerSecond.
  replace (t + k * 86400000) with (t + (k * 86400) * 1000) by lia.
  rewrite Z.div_add by lia.
  replace (t / 1000 + k * 86400) with (t / 1000 + (k * 1440) * 60) by lia.
  apply Z.mod_add. lia.
Qed.

(** X9: [timeRange] is a daily schedule of the time it reads. A call
    that ends with the marker gives the same result at two instants a
    whole number of days apart; a call without it gives the same result
    at two readings whose local times (the instant plus the offset in
    force then) are a whole number of days apart, whatever the two
    offsets are. *)
Theorem X9_timeRange_repeats_every_day (args : list value) (k : Z)
    (w w' : World) :
  (time_value (clock w') = time_value (clock w) + k * msPerDay ->
   result_of (TimeRange.call (args ++ [VStr "GMT"])) w'
   = result_of (TimeRange.call (args ++ [VStr "GMT"])) w)
  /\ (last args <> Some (VStr "GMT") ->
      LocalTime (clock w') = LocalTime (clock w) + k * msPerDay ->
      result_of (TimeRange.call args) w'
      = result_of (TimeRange.call args) w).
Proof.
  split.
  - intros Ht. rewrite !call_result, !timeRange_fun_marker. f_equal.
    apply dispatch_reads;
      unfold hour_now, minute_now, second_now, getUTCHours, getUTCMinutes,
        getUTCSeconds; rewrite Ht;
      auto using HourFromTime_next_day, MinFromTime_next_day,
        SecFromTime_next_day.
  - intros Hlast Ht.
    rewrite !call_result, !(timeRange_fun_not_marker _ _ Hlast). f_equal.
    apply dispatch_reads;
      unfold hour_now, minute_now, second_now, getHours, getMinutes,
        getSeconds; rewrite Ht;
      auto using HourFromTime_next_day, MinFromTime_next_day,
        SecFromTime_next_day.
Qed.

Lemma X9_witness :
  result_of (TimeRange.call ([VNum 12] ++ [VStr "GMT"]))
    (world_at (instant 4 12 30 0) 3600000)
  = result_of (TimeRange.call ([VNum 12] ++ [VStr "GMT"]))
      (world_at (instant 1 12 30 0) 7200000)
  /\ result_of (TimeRange.call [VNum 12; VNum 13])
       (world_at (instant 1 11 30 0) 3600000)
     = result_of (TimeRange.call [VNum 12; VNum 13])
         (world_at (instant 0 10 30 0) 7200000).
Proof.
  split.
  - apply (proj1 (X9_timeRange_repeats_every_day [VNum 12] 3 _ _)).
    reflexivity.
  - apply (proj2 (X9_timeRange_repeats_every_day [VNum 12; VNum 13] 1 _ _));
      [discriminate | reflexivity].
Defined.

(** * Further properties of [weekdayRange] *)

Lemma token_in_weekdays (s : string) :
  In (VStr s) WeekdayRange.weekdays -> VStr s ∈ WeekdayRange.weekdays.
Proof. apply list_elem_of_In. Qed.

Lemma undefined_not_weekday : VUndefined ∉ WeekdayRange.weekdays.
Proof.
  intros H. apply list_elem_of_In in H. simpl in H. intuition discriminate.
Qed.

Lemma marker_not_weekday : VStr "GMT" ∉ WeekdayRange.weekdays.
Proof.
  intros H. apply list_elem_of_In in H. simpl in H. intuition discriminate.
Qed.

(** X10: in the two-weekday form with tokens in week order
    ([index(wd1) <= index(wd2)]) the result is true exactly from the
    first day to the second, both included; today is read in UTC when
    the third argument is the marker and in local time otherwise. *)
Theorem X10_weekdays_in_order_inclusive (wd1 wd2 gmt : value) (w : World) :
  wd1 ∈ WeekdayRange.weekdays -> wd2 ∈ WeekdayRange.weekdays ->
  indexOf WeekdayRange.weekdays wd1 <= indexOf WeekdayRange.weekdays wd2 ->
  exists b : bool,
    result_of (WeekdayRange.weekdayRange wd1 wd2 gmt) w = Some b
    /\ (b = true <->
        indexOf WeekdayRange.weekdays wd1
          <= day_now (WeekdayRange.isGMT gmt) (clock w)
          <= indexOf WeekdayRange.weekdays wd2).
Proof.
  intros H1 H2 Hle. eexists. split; [by apply two_weekdays |].
  destruct (Z.leb_spec (indexOf WeekdayRange.weekdays wd1)
              (indexOf WeekdayRange.weekdays wd2)); [| lia].
  by rewrite andb_true_iff, !Z.leb_le.
Qed.

Lemma X10_witness :
  exists b : bool,
    result_of
      (WeekdayRange.weekdayRange (VStr "MON") (VStr "FRI") (VStr "GMT"))
      (world_at (instant 5 23 0 0) 3600000) = Some b
    /\ (b = true <->
        indexOf WeekdayRange.weekdays (VStr "MON")
          <= day_now (WeekdayRange.isGMT (VStr "GMT"))
               (clock (world_at (instant 5 23 0 0) 3600000))
          <= indexOf WeekdayRange.weekdays (VStr "FRI")).
Proof.
  apply X10_weekdays_in_order_inclusive.
  - apply token_in_weekdays. simpl. tauto.
  - apply token_in_weekdays. simpl. tauto.
  - vm_compute. discriminate.
Defined.

(** X11: the marker in second place selects UTC like the marker in
    third place: [weekdayRange(wd, "GMT")], with any third argument, and
    [weekdayRange(wd, undefined, "GMT")] give the same result, true
    exactly when the UTC day is [index(wd)]; with no marker at all the
    local day is compared. *)
Theorem X11_marker_in_second_place (wd1 gmt : value) (w : World) :
  result_of (WeekdayRange.weekdayRange wd1 (VStr "GMT") gmt) w
  = Some (getUTCDay (clock w) =? indexOf WeekdayRange.weekdays wd1)
  /\ result_of (WeekdayRange.weekdayRange wd1 VUndefined (VStr "GMT")) w
     = Some (getUTCDay (clock w) =? indexOf WeekdayRange.weekdays wd1)
  /\ result_of (WeekdayRange.weekdayRange wd1 VUndefined VUndefined) w
     = Some (getDay (clock w) =? indexOf WeekdayRange.weekdays wd1).
Proof.
  rewrite (single_weekday _ _ _ _ marker_not_weekday).
  rewrite !(single_weekday _ _ _ _ undefined_not_weekday).
  unfold WeekdayRangeFun.useGMTzone.
  change (WeekdayRange.isGMT (VStr "GMT")) with true.
  rewrite orb_true_r. split; [reflexivity |]. split; reflexivity.
Qed.

(** X12: naming the same weekday twice is naming it once:
    [weekdayRange(wd, wd, gmt)] and [weekdayRange(wd, undefined, gmt)]
    agree at every clock reading. *)
Theorem X12_same_weekday_twice (wd gmt : value) (w : World) :
  wd ∈ WeekdayRange.weekdays ->
  result_of (WeekdayRange.weekdayRange wd wd gmt) w
  = result_of (WeekdayRange.weekdayRange wd VUndefined gmt) w.
Proof.
  intros H. rewrite (two_weekdays _ _ _ _ H).
  rewrite (single_weekday _ _ _ _ undefined_not_weekday).
  unfold WeekdayRangeFun.useGMTzone.
  change (WeekdayRange.isGMT VUndefined) with false. rewrite orb_false_r.
  f_equal. rewrite Z.leb_refl.
  destruct (Z.leb_spec (indexOf WeekdayRange.weekdays wd)
              (day_now (WeekdayRange.isGMT gmt) (clock w))),
    (Z.leb_spec (day_now (WeekdayRange.isGMT gmt) (clock w))
       (indexOf WeekdayRange.weekdays wd)),
    (Z.eqb_spec (day_now (WeekdayRange.isGMT gmt) (clock w))
       (indexOf WeekdayRange.weekdays wd));
    simpl; (reflexivity || lia).
Qed.

Lemma X12_witness :
  result_of
    (WeekdayRange.weekdayRange (VStr "WED") (VStr "WED") VUndefined)
    (world_at (instant 3 8 0 0) 0)
  = result_of
      (WeekdayRange.weekdayRange (VStr "WED") VUndefined VUndefined)
      (world_at (instant 3 8 0 0) 0).
Proof.
  apply X12_same_weekday_twice. apply token_in_weekdays. simpl. tauto.
Defined.

(** X13: a window that goes round the whole week is true every day:
    from Sunday to Saturday, or from any day to the day before it (as
    [weekdayRange("MON", "SUN")]). *)
Theorem X13_whole_week_is_always_true (wd1 wd2 gmt : value) (w : World) :
  wd1 ∈ WeekdayRange.weekdays -> wd2 ∈ WeekdayRange.weekdays ->
  (indexOf WeekdayRange.weekdays wd1 = 0
   /\ indexOf WeekdayRange.weekdays wd2 = 6)
  \/ indexOf WeekdayRange.weekdays wd1
     = indexOf WeekdayRange.weekdays wd2 + 1 ->
  result_of (WeekdayRange.weekdayRange wd1 wd2 gmt) w = Some true.
Proof.
  intros H1 H2 Hfull. rewrite (two_weekdays _ _ _ _ H2). f_equal.
  pose proof (indexOf_weekdays_token _ H1) as Hi1.
  pose proof (indexOf_weekdays_token _ H2) as Hi2.
  pose proof (day_now_range (WeekdayRange.isGMT gmt) (clock w)) as Hd.
  destruct (Z.leb_spec (indexOf WeekdayRange.weekdays wd1)
              (indexOf WeekdayRange.weekdays wd2)).
  - rewrite andb_true_iff, !Z.leb_le. lia.
  - rewrite orb_true_iff, !andb_true_iff, !Z.leb_le. lia.
Qed.

Lemma X13_witness :
  result_of
    (WeekdayRange.weekdayRange (VStr "MON") (VStr "SUN") VUndefined)
    (world_at (instant 3 8 0 0) 0) = Some true.
Proof.
  apply X13_whole_week_is_always_true.
  - apply token_in_weekdays. simpl. tauto.
  - apply token_in_weekdays. simpl. tauto.
  - right. reflexivity.
Defined.

(** X14: a window that wraps round the end of the week is the
    complement of the days strictly between its ends: with [lo] the day
    after [wd2] and [hi] the day before [wd1],
    [weekdayRange(wd1, wd2)] is true exactly when
    [weekdayRange(lo, hi)] is false (as FRI to MON against TUE to
    THU). *)
Theorem X14_wrapped_window_is_a_complement (wd1 wd2 lo hi gmt : value)
    (w : World) :
  wd1 ∈ WeekdayRange.weekdays -> wd2 ∈ WeekdayRange.weekdays ->
  lo ∈ WeekdayRange.weekdays -> hi ∈ WeekdayRange.weekdays ->
  indexOf WeekdayRange.weekdays lo
  = indexOf WeekdayRange.weekdays wd2 + 1 ->
  indexOf WeekdayRange.weekdays hi
  = indexOf WeekdayRange.weekdays wd1 - 1 ->
  indexOf WeekdayRange.weekdays lo <= indexOf WeekdayRange.weekdays hi ->
  exists b : bool,
    result_of (WeekdayRange.weekdayRange wd1 wd2 gmt) w = Some b
    /\ result_of (WeekdayRange.weekdayRange lo hi gmt) w = Some (negb b).
Proof.
  intros H1 H2 Hlo Hhi Elo Ehi Hle.
  eexists. split; [by apply two_weekdays |].
  rewrite (two_weekdays _ _ _ _ Hhi). f_equal.
  pose proof (indexOf_weekdays_token _ H1) as Hi1.
  pose proof (indexOf_weekdays_token _ H2) as Hi2.
  pose proof (day_now_range (WeekdayRange.isGMT gmt) (clock w)) as Hd.
  rewrite Elo, Ehi in *.
  set (i1 := indexOf WeekdayRange.weekdays wd1) in *.
  set (i2 := indexOf WeekdayRange.weekdays wd2) in *.
  set (today := day_now (WeekdayRange.isGMT gmt) (clock w)) in *.
  destruct (Z.leb_spec (i2 + 1) (i1 - 1)); [| lia].
  destruct (Z.leb_spec i1 i2); [lia |].
  destruct (Z.leb_spec (i2 + 1) today), (Z.leb_spec today (i1 - 1)),
    (Z.leb_spec i1 today), (Z.leb_spec today 6), (Z.leb_spec 0 today),
    (Z.leb_spec today i2);
    simpl; (reflexivity || lia).
Qed.

Lemma X14_witness :
  exists b : bool,
    result_of
      (WeekdayRange.weekdayRange (VStr "FRI") (VStr "MON") VUndefined)
      (world_at (instant 6 8 0 0) 0) = Some b
    /\ result_of
         (WeekdayRange.weekdayRange (VStr "TUE") (VStr "THU") VUndefined)
         (world_at (instant 6 8 0 0) 0) = Some (negb b).
Proof.
  apply X14_wrapped_window_is_a_complement;
    try (apply token_in_weekdays; simpl; tauto);
    try reflexivity.
  vm_compute. discriminate.
Defined.

(** X15: the zone is all the marker changes. With the marker in second
    or third place the result depends on the instant only, not on the
    host's time zone; with no marker it depends on the local time only,
    whatever instant and offset make it up. *)
Theorem X15_weekdayRange_zone (wd1 wd2 gmt : value) (w w' : World) :
  (gmt = VStr "GMT" \/ wd2 = VStr "GMT" ->
   time_value (clock w) = time_value (clock w') ->
   result_of (WeekdayRange.weekdayRange wd1 wd2 gmt) w
   = result_of (WeekdayRange.weekdayRange wd1 wd2 gmt) w')
  /\ (gmt <> VStr "GMT" -> wd2 <> VStr "GMT" ->
      LocalTime (clock w) = LocalTime (clock w') ->
      result_of (WeekdayRange.weekdayRange wd1 wd2 gmt) w
      = result_of (WeekdayRange.weekdayRange wd1 wd2 gmt) w').
Proof.
  rewrite !weekdayRange_result.
  unfold WeekdayRangeFun.weekdayRange, WeekdayRangeFun.useGMTzone.
  split.
  - intros Hmarker Ht.
    replace (WeekdayRange.isGMT gmt || WeekdayRange.isGMT wd2) with true.
    + unfold day_now, getUTCDay. by rewrite Ht.
    + symmetry. apply orb_true_iff. rewrite !isGMT_spec. exact Hmarker.
  - intros Hgmt Hwd2 Ht.
    replace (WeekdayRange.isGMT gmt || WeekdayRange.isGMT wd2) with false.
    + unfold day_now, getDay. by rewrite Ht.
    + symmetry. apply orb_false_iff.
      split; apply not_true_iff_false; by rewrite isGMT_spec.
Qed.

Lemma X15_witness :
  result_of
    (WeekdayRange.weekdayRange (VStr "SAT") (VStr "GMT") VUndefined)
    (world_at (instant 6 23 30 0) 3600000)
  = result_of
      (WeekdayRange.weekdayRange (VStr "SAT") (VStr "GMT") VUndefined)
      (world_at (instant 6 23 30 0) (-18000000))
  /\ result_of
       (WeekdayRange.weekdayRange (VStr "SAT") (VStr "SUN") VUndefined)
       (world_at (instant 5 23 30 0) 3600000)
     = result_of
         (WeekdayRange.weekdayRange (VStr "SAT") (VStr "SUN") VUndefined)
         (world_at (instant 6 0 30 0) 0).
Proof.
  split.
  - apply (proj1 (X15_weekdayRange_zone _ _ _ _ _)); [by right |].
    reflexivity.
  - apply (proj2 (X15_weekdayRange_zone _ _ _ _ _));
      [discriminate | discriminate |].
    reflexivity.
Defined.

(** X16: the table of tokens and its search. [isWeekday] accepts exactly
    the seven tokens; [indexOf] on the table is always from [-1] to 6;
    and position and token determine each other: the token at position
    [i] is found at [i], and a token is at the position where it is
    found. *)
Theorem X16_weekday_table_round_trip :
  (forall v : value,
      WeekdayRange.isWeekday v = true <-> v ∈ WeekdayRange.weekdays)
  /\ (forall v : value, -1 <= indexOf WeekdayRange.weekdays v <= 6)
  /\ (forall (i : nat) (v : value),
        WeekdayRange.weekdays !! i = Some v ->
        indexOf WeekdayRange.weekdays v = Z.of_nat i)
  /\ (forall v : value,
        v ∈ WeekdayRange.weekdays ->
        WeekdayRange.weekdays
          !! Z.to_nat (indexOf WeekdayRange.weekdays v) = Some v).
Proof.
  split; [| split; [| split]].
  - intros v. unfold WeekdayRange.isWeekday.
    rewrite negb_true_iff, Z.eqb_neq.
    destruct (indexOf_weekdays v) as [(Hin & Hi & _) | [Hout Hi]].
    + split; [intros _; exact Hin | intros _; lia].
    + split; [intros H; contradiction | intros H; contradiction].
  - intros v.
    destruct (indexOf_weekdays v) as [(_ & Hi & _) | [_ Hi]]; lia.
  - intros i v Hi.
    do 7 (destruct i as [|i]; [injection Hi as <-; reflexivity |]).
    discriminate Hi.
  - intros v Hin.
    destruct (indexOf_weekdays v) as [(_ & _ & Hi) | [Hout _]];
      [exact Hi | contradiction].
Qed.

Lemma X16_witness :
  indexOf WeekdayRange.weekdays (VStr "THU") = Z.of_nat 4
  /\ WeekdayRange.weekdays
       !! Z.to_nat (indexOf WeekdayRange.weekdays (VStr "THU"))
     = Some (VStr "THU").
Proof.
  destruct X16_weekday_table_round_trip as (_ & _ & Hfind & Hat).
  split.
  - apply Hfind. reflexivity.
  - apply Hat. apply token_in_weekdays. simpl. tauto.
Defined.

Lemma WeekDay_next_week (t k : Z) :
  WeekDay (t + k * (7 * msPerDay)) = WeekDay t.
Proof.
  unfold WeekDay, Day, msPerDay.
  replace (t + k * (7 * 86400000)) with (t + (k * 7) * 86400000) by lia.
  rewrite Z.div_add by lia.
  replace (t / 86400000 + k * 7 + 4) with (t / 86400000 + 4 + k * 7) by lia.
  apply Z.mod_add. lia.
Qed.

(** X17: [weekdayRange] is a weekly schedule of the day it reads. With
    the marker in second or third place the result is the same at two
    instants a whole number of weeks apart; without it, at two readings
    whose local times (the instant plus the offset in force then) are a
    whole number of weeks apart, whatever the two offsets are. *)
Theorem X17_weekdayRange_repeats_every_week (wd1 wd2 gmt : value) (k : Z)
    (w w' : World) :
  (gmt = VStr "GMT" \/ wd2 = VStr "GMT" ->
   time_value (clock w') = time_value (clock w) + k * (7 * msPerDay) ->
   result_of (WeekdayRange.weekdayRange wd1 wd2 gmt) w'
   = result_of (WeekdayRange.weekdayRange wd1 wd2 gmt) w)
  /\ (gmt <> VStr "GMT" -> wd2 <> VStr "GMT" ->
      LocalTime (clock w') = LocalTime (clock w) + k * (7 * msPerDay) ->
      result_of (WeekdayRange.weekdayRange wd1 wd2 gmt) w'
      = result_of (WeekdayRange.weekdayRange wd1 wd2 gmt) w).
Proof.
  rewrite !weekdayRange_result.
  unfold WeekdayRangeFun.weekdayRange, WeekdayRangeFun.useGMTzone.
  split.
  - intros Hmarker Ht.
    replace (WeekdayRange.isGMT gmt || WeekdayRange.isGMT wd2) with true.
    + unfold day_now, getUTCDay. by rewrite Ht, WeekDay_next_week.
    + symmetry. apply orb_true_iff. rewrite !isGMT_spec. exact Hmarker.
  - intros Hgmt Hwd2 Ht.
    replace (WeekdayRange.isGMT gmt || WeekdayRange.isGMT wd2) with false.
    + unfold day_now, getDay. by rewrite Ht, WeekDay_next_week.
    + symmetry. apply orb_false_iff.
      split; apply not_true_iff_false; by rewrite isGMT_spec.
Qed.

Lemma X17_witness :
  result_of
    (WeekdayRange.weekdayRange (VStr "SAT") VUndefined (VStr "GMT"))
    (world_at (instant 13 23 30 0) 7200000)
  = result_of
      (WeekdayRange.weekdayRange (VStr "SAT") VUndefined (VStr "GMT"))
      (world_at (instant 6 23 30 0) 3600000)
  /\ result_of
       (WeekdayRange.weekdayRange (VStr "SAT") VUndefined VUndefined)
       (world_at (instant 13 21 30 0) 7200000)
     = result_of
         (WeekdayRange.weekdayRange (VStr "SAT") VUndefined VUndefined)
         (world_at (instant 6 22 30 0) 3600000).
Proof.
  split.
  - apply (proj1 (X17_weekdayRange_repeats_every_week _ _ _ 1 _ _));
      [by left | reflexivity].
  - apply (proj2 (X17_weekdayRange_repeats_every_week _ _ _ 1 _ _));
      [discriminate | discriminate | reflexivity].
Defined.

(** X18: order matters, and this is how: for two different tokens in
    week order, [weekdayRange(wd1, wd2)] and [weekdayRange(wd2, wd1)]
    together cover every day, and both are true exactly on the two days
    named. *)
Theorem X18_window_and_its_reverse (wd1 wd2 gmt : value) (w : World) :
  wd1 ∈ WeekdayRange.weekdays -> wd2 ∈ WeekdayRange.weekdays ->
  indexOf WeekdayRange.weekdays wd1 < indexOf WeekdayRange.weekdays wd2 ->
  exists b b' : bool,
    result_of (WeekdayRange.weekdayRange wd1 wd2 gmt) w = Some b
    /\ result_of (WeekdayRange.weekdayRange wd2 wd1 gmt) w = Some b'
    /\ (b = true \/ b' = true)
    /\ (b = true /\ b' = true <->
        day_now (WeekdayRange.isGMT gmt) (clock w)
        = indexOf WeekdayRange.weekdays wd1
        \/ day_now (WeekdayRange.isGMT gmt) (clock w)
           = indexOf WeekdayRange.weekdays wd2).
Proof.
  intros H1 H2 Hlt. do 2 eexists.
  split; [by apply two_weekdays |]. split; [by apply two_weekdays |].
  pose proof (indexOf_weekdays_token _ H1) as Hi1.
  pose proof (indexOf_weekdays_token _ H2) as Hi2.
  pose proof (day_now_range (WeekdayRange.isGMT gmt) (clock w)) as Hd.
  set (i1 := indexOf WeekdayRange.weekdays wd1) in *.
  set (i2 := indexOf WeekdayRange.weekdays wd2) in *.
  set (today := day_now (WeekdayRange.isGMT gmt) (clock w)) in *.
  destruct (Z.leb_spec i1 i2); [| lia].
  destruct (Z.leb_spec i2 i1); [lia |].
  rewrite orb_true_iff, !andb_true_iff, !Z.leb_le. lia.
Qed.

Lemma X18_witness :
  exists b b' : bool,
    result_of
      (WeekdayRange.weekdayRange (VStr "MON") (VStr "FRI") VUndefined)
      (world_at (instant 5 8 0 0) 0) = Some b
    /\ result_of
         (WeekdayRange.weekdayRange (VStr "FRI") (VStr "MON") VUndefined)
         (world_at (instant 5 8 0 0) 0) = Some b'
    /\ (b = true \/ b' = true)
    /\ (b = true /\ b' = true <->
        day_now (WeekdayRange.isGMT VUndefined)
          (clock (world_at (instant 5 8 0 0) 0))
        = indexOf WeekdayRange.weekdays (VStr "MON")
        \/ day_now (WeekdayRange.isGMT VUndefined)
             (clock (world_at (instant 5 8 0 0) 0))
           = indexOf WeekdayRange.weekdays (VStr "FRI")).
Proof.
  apply X18_window_and_its_reverse.
  - apply token_in_weekdays. simpl. tauto.
  - apply token_in_weekdays. simpl. tauto.
  - reflexivity.
Defined.

(** * The grain of each [timeRange] form *)

(** X19: a six-argument window whose start and end are the same valid
    time of day is true during that one second and at no other clock
    reading (minute and second from 0 to 59, the hour up to [10^12] in
    magnitude). *)
Theorem X19_one_second_window (a1 a2 a3 : value) (hour min sec : Z)
    (gmt : bool) (w : World) :
  parseInt a1 10 = Int hour -> parseInt a2 10 = Int min ->
  parseInt a3 10 = Int sec ->
  in_range hour -> 0 <= min < 60 -> 0 <= sec < 60 ->
  exists b : bool,
    result_of (TimeRange.call ([a1; a2; a3; a1; a2; a3] ++ zone gmt)) w
    = Some b
    /\ (b = true <->
        hour_now gmt (clock w) = hour
        /\ minute_now gmt (clock w) = min
        /\ second_now gmt (clock w) = sec).
Proof.
  intros H1 H2 H3 Rh Hmin Hsec.
  assert (Rm : in_range min) by (unfold in_range; lia).
  assert (Rs : in_range sec) by (unfold in_range; lia).
  eexists. split; [by apply six_arguments |]. rewrite valueInRange_Int.
  apply point_window;
    [lia | lia | apply minute_now_range | apply second_now_range].
Qed.

Lemma X19_witness :
  exists b : bool,
    result_of
      (TimeRange.call
         ([VNum 12; VNum 0; VNum 0; VNum 12; VNum 0; VNum 0] ++ zone true))
      (world_at (instant 2 12 0 0) 7200000) = Some b
    /\ (b = true <->
        hour_now true (clock (world_at (instant 2 12 0 0) 7200000)) = 12
        /\ minute_now true (clock (world_at (instant 2 12 0 0) 7200000)) = 0
        /\ second_now true (clock (world_at (instant 2 12 0 0) 7200000))
           = 0).
Proof.
  apply (X19_one_second_window (VNum 12) (VNum 0) (VNum 0) 12 0 0);
    reflexivity || (unfold in_range; lia) || lia.
Defined.

Lemma dispatch_reads_hour (gmt : bool) (d d' : Date) (nums : list number) :
  (length nums <= 2)%nat ->
  hour_now gmt d = hour_now gmt d' ->
  TimeRangeFun.dispatch gmt d nums = TimeRangeFun.dispatch gmt d' nums.
Proof.
  intros Hlen Hh.
  destruct nums as [|n0 [|n1 [|n2 nums]]]; simpl in Hlen; [| | | lia];
    unfold TimeRangeFun.dispatch;
    by rewrite ?getCurrentHour_Int, ?Hh.
Qed.

Lemma dispatch_reads_minute (gmt : bool) (d d' : Date)
    (nums : list number) :
  length nums = 4%nat ->
  hour_now gmt d = hour_now gmt d' ->
  minute_now gmt d = minute_now gmt d' ->
  TimeRangeFun.dispatch gmt d nums = TimeRangeFun.dispatch gmt d' nums.
Proof.
  intros Hlen Hh Hm.
  destruct nums as [|n0 [|n1 [|n2 [|n3 [|n4 nums]]]]]; try discriminate.
  unfold TimeRangeFun.dispatch.
  by rewrite !getCurrentHour_Int, !getCurrentMinute_Int, Hh, Hm.
Qed.

(** X20: each form looks at the clock no finer than its arguments. A
    call with at most two arguments gives the same result at any two
    readings in the same hour; a call with four arguments gives the same
    result at any two readings in the same hour and minute: the current
    second is never looked at. *)
Theorem X20_forms_ignore_finer_fields (args : list value) (gmt : bool)
    (w w' : World) :
  last args <> Some (VStr "GMT") ->
  hour_now gmt (clock w) = hour_now gmt (clock w') ->
  ((length args <= 2)%nat ->
   result_of (TimeRange.call (args ++ zone gmt)) w
   = result_of (TimeRange.call (args ++ zone gmt)) w')
  /\ (length args = 4%nat ->
      minute_now gmt (clock w) = minute_now gmt (clock w') ->
      result_of (TimeRange.call (args ++ zone gmt)) w
      = result_of (TimeRange.call (args ++ zone gmt)) w').
Proof.
  intros Hlast Hh. rewrite !call_result.
  assert (Hfun : forall d,
    TimeRangeFun.timeRange (args ++ zone gmt) d
    = TimeRangeFun.dispatch gmt d
        (map (fun n => parseInt n 10)
           (match args with
            | [] => if gmt then [] else [VUndefined]
            | _ => args
            end))).
  { intros d. destruct gmt; simpl zone.
    - rewrite timeRange_fun_marker. by destruct args.
    - rewrite app_nil_r. apply (timeRange_fun_not_marker _ _ Hlast). }
  rewrite !Hfun. split.
  - intros Hlen. f_equal. apply dispatch_reads_hour; [| exact Hh].
    rewrite length_map.
    destruct args; [destruct gmt; simpl; lia | exact Hlen].
  - intros Hlen Hm. f_equal.
    apply dispatch_reads_minute; [| exact Hh | exact Hm].
    rewrite length_map. destruct args; [discriminate | exact Hlen].
Qed.

Lemma X20_witness :
  let args := [VNum 9; VNum 17] in
  let w := world_at (instant 1 16 0 0) 0 in
  let w' := world_at (instant 3 16 59 59) 0 in
  ((length args <= 2)%nat ->
   result_of (TimeRange.call (args ++ zone false)) w
   = result_of (TimeRange.call (args ++ zone false)) w')
  /\ (length args = 4%nat ->
      minute_now false (clock w) = minute_now false (clock w') ->
      result_of (TimeRange.call (args ++ zone false)) w
      = result_of (TimeRange.call (args ++ zone false)) w').
Proof.
  intros args w w'.
  apply X20_forms_ignore_finer_fields; [discriminate | reflexivity].
Defined.
